(** * A shallow embedding of [server/server.py]

    The module-level dictionaries [metrics], [session_data] and [file_cache]
    of the server become one explicit [world] value that every operation
    takes and returns.  Python floats are IEEE binary64 numbers and are
    modelled by the kernel's primitive floats; Python [str] values are
    sequences of code points, modelled by [string] with one [ascii] per code
    point below 256.  What a handler reads from its environment (the bytes
    read from the socket, the clock, the file system, the fresh session
    identifier) is collected in a record [env]. *)

From Stdlib Require Import ZArith List String Ascii Floats Bool Lia Sorted.
From stdpp Require Import base option list gmap strings pretty.
Import ListNotations.

Open Scope string_scope.
Open Scope list_scope.
Open Scope Z_scope.

(** ** Python strings *)

Module PyStr.

Definition ord (c : ascii) : Z := Z.of_N (N_of_ascii c).

(** [str.isspace] on the code points below 256. *)
Definition isspace (c : ascii) : bool :=
  let n := ord c in
  ((9 <=? n) && (n <=? 13)) || ((28 <=? n) && (n <=? 32))
  || (n =? 133) || (n =? 160).

(** [str.lower] on the code points below 256: the ASCII capitals and the
    Latin-1 capitals other than the multiplication sign. *)
Definition lower_char (c : ascii) : ascii :=
  let n := ord c in
  if ((65 <=? n) && (n <=? 90))
     || ((192 <=? n) && (n <=? 222) && negb (n =? 215))
  then ascii_of_N (Z.to_N (n + 32)) else c.

Fixpoint lower (s : string) : string :=
  match s with
  | EmptyString => EmptyString
  | String c s' => String (lower_char c) (lower s')
  end.

Fixpoint startswith (p s : string) : bool :=
  match p, s with
  | EmptyString, _ => true
  | String a p', String b s' => Ascii.eqb a b && startswith p' s'
  | String _ _, EmptyString => false
  end.

(** [sub in s]. *)
Fixpoint contains (sub s : string) : bool :=
  startswith sub s ||
  match s with
  | EmptyString => false
  | String _ s' => contains sub s'
  end.

Definition snoc (s : string) (c : ascii) : string :=
  String.append s (String c EmptyString).

(** [s.split(CRLF)], with the piece being read in [cur]. *)
Fixpoint split_crlf_from (cur s : string) : list string :=
  match s with
  | EmptyString => [cur]
  | String c s' =>
      match s' with
      | String d s'' =>
          if (ord c =? 13) && (ord d =? 10)
          then cur :: split_crlf_from EmptyString s''
          else split_crlf_from (snoc cur c) s'
      | EmptyString => [snoc cur c]
      end
  end.

Definition split_crlf (s : string) : list string :=
  split_crlf_from EmptyString s.

(** [s.split()]: the maximal runs of characters that are not whitespace. *)
Fixpoint split_from (cur s : string) : list string :=
  match s with
  | EmptyString => if String.eqb cur EmptyString then [] else [cur]
  | String c s' =>
      if isspace c
      then (if String.eqb cur EmptyString then split_from EmptyString s'
            else cur :: split_from EmptyString s')
      else split_from (snoc cur c) s'
  end.

Definition split (s : string) : list string := split_from EmptyString s.

Fixpoint lstrip (s : string) : string :=
  match s with
  | String c s' => if isspace c then lstrip s' else s
  | EmptyString => EmptyString
  end.

Definition rev (s : string) : string :=
  string_of_list_ascii (List.rev (list_ascii_of_string s)).

(** [s.strip()]. *)
Definition strip (s : string) : string := rev (lstrip (rev (lstrip s))).

(** [s.lstrip("/")]. *)
Fixpoint lstrip_slash (s : string) : string :=
  match s with
  | String c s' => if ord c =? 47 then lstrip_slash s' else s
  | EmptyString => EmptyString
  end.

(** [s.split(":", 1)] when [":" in s]: the text before the first colon and
    the text after it; [None] when [s] has no colon. *)
Fixpoint partition_colon (s : string) : option (string * string) :=
  match s with
  | EmptyString => None
  | String c s' =>
      if ord c =? 58 then Some (EmptyString, s')
      else match partition_colon s' with
           | Some (k, v) => Some (String c k, v)
           | None => None
           end
  end.

(** [s.encode("utf-8")]: a code point below 128 is one byte, one from 128
    to 255 is two. *)
Fixpoint encode_utf8 (s : string) : string :=
  match s with
  | EmptyString => EmptyString
  | String c s' =>
      let n := ord c in
      if n <? 128 then String c (encode_utf8 s')
      else String (ascii_of_N (Z.to_N (192 + n / 64)))
             (String (ascii_of_N (Z.to_N (128 + n mod 64))) (encode_utf8 s'))
  end.

(** [str(n)] for an integer. *)
Definition str (n : Z) : string := pretty n.

Definition CRLF : string := String (ascii_of_N 13) (String (ascii_of_N 10) EmptyString).

End PyStr.

(** ** Python floats *)

Module PyFloat.

(** The integer nearest to [a / b] for [b > 0], ties to the even one. *)
Definition rne_div (a b : Z) : Z :=
  let q := a / b in
  let r := a mod b in
  match (2 * r ?= b) with
  | Lt => q
  | Gt => q + 1
  | Eq => if Z.even q then q else q + 1
  end.

(** The binary64 number nearest to [r / d] ([r >= 0], [0 < d < 2^16]),
    with sign [s]: the quotient is taken with 80 extra bits and a sticky
    bit, and rounded once. *)
Definition nearest_ratio (s : bool) (r d : Z) : spec_float :=
  if r =? 0 then S754_zero s else
  let k := 80 in
  let q := (r * 2 ^ k) / d in
  let sticky := if (r * 2 ^ k) mod d =? 0 then 0 else 1 in
  let m := 2 * q + sticky in
  binary_normalize prec emax (if s then - m else m) (- k - 1) s.

(** [round(x, ndigits)] for [0 <= ndigits <= 4]: the exact value of [x] is
    rounded to [ndigits] decimals, ties to even, and the decimal is
    converted back to the nearest float; zeros, infinities and NaN are
    returned as they are. *)
Definition round (x : float) (ndigits : Z) : float :=
  match Prim2SF x with
  | S754_finite s m e =>
      let scale := 10 ^ ndigits in
      let r := rne_div (Zpos m * scale * 2 ^ (Z.max e 0)) (2 ^ (Z.max (- e) 0)) in
      SF2Prim (nearest_ratio s r scale)
  | _ => x
  end.

(** The float of a Python [int] of small magnitude (below 2^53, where the
    conversion is exact). *)
Definition of_int (n : Z) : float :=
  if n <? 0 then (- PrimFloat.of_uint63 (Uint63.of_Z (- n)))%float
  else PrimFloat.of_uint63 (Uint63.of_Z n).

(** [sum(l)] of CPython up to 3.11: the additions are done left to right,
    starting from the integer 0. *)
Definition sum (l : list float) : float :=
  fold_left PrimFloat.add l (of_int 0).

(** [sorted(l)]: a stable sort by [<]; on lists without NaN every stable
    sort gives the list CPython's sort gives. *)
Fixpoint insert_sorted (x : float) (l : list float) : list float :=
  match l with
  | [] => [x]
  | y :: l' => if (y <? x)%float then y :: insert_sorted x l' else x :: l
  end.

Definition sorted (l : list float) : list float :=
  fold_right insert_sorted [] l.

End PyFloat.

(** ** The shared state *)

(** One element of [metrics["recent_requests"]]. *)
Record request_entry := RequestEntry {
  re_ip : string;
  re_path : string;
  re_response_time : float;
  re_status_code : Z;
  re_time : string;
  re_country : string
}.

(** One value of [session_data]. *)
Record session := Session {
  session_id : string;
  first_seen : string;
  last_seen : string;
  hit_count : Z;
  last_path : option string;
  device_type : string
}.

(** The dictionary [metrics]. *)
Record metrics_t := Metrics {
  active_clients : Z;
  total_requests : Z;
  average_response_time : float;
  recent_requests : list request_entry;
  cache_enabled : bool;
  cache_hits : Z;
  cache_misses : Z;
  response_times : list float;
  unique_sessions : Z;
  thread_pool_size : Z;
  queue_size : Z;
  latency_trend : list float;
  status_codes : gmap string Z;
  geo : gmap string Z
}.

(** A Python dictionary whose order of insertion is observed
    ([list(session_data.values())]): the keys in the order they were first
    inserted, each with its current value. *)
Module ODict.
Section Ops.
Context {V : Type}.

Fixpoint lookup (k : string) (d : list (string * V)) : option V :=
  match d with
  | [] => None
  | (k', v) :: d' => if String.eqb k k' then Some v else lookup k d'
  end.

Definition mem (k : string) (d : list (string * V)) : bool :=
  match lookup k d with Some _ => true | None => false end.

(** [d[k] = v]: an existing key keeps its place, a new one goes last. *)
Fixpoint set (k : string) (v : V) (d : list (string * V)) : list (string * V) :=
  match d with
  | [] => [(k, v)]
  | (k', v') :: d' =>
      if String.eqb k k' then (k, v) :: d' else (k', v') :: set k v d'
  end.

Definition values (d : list (string * V)) : list V := map snd d.
Definition keys (d : list (string * V)) : list string := map fst d.

(** The number of entries of [d] under the key [k]. *)
Definition entries (k : string) (d : list (string * V)) : nat :=
  length (List.filter (fun kv => String.eqb k (fst kv)) d).
End Ops.
End ODict.

(** The three module-level dictionaries. *)
Record world := World {
  metrics : metrics_t;
  session_data : list (string * session);
  file_cache : gmap string string
}.

Definition MAX_RECENT : nat := 100.
Definition MAX_LAT : nat := 120.
(** The bound written in [response_times[-2000:]]. *)
Definition MAX_TIMES : nat := 2000.

(** The state the module starts in ([thread_pool_size] is set by the
    constructor of the server instance, with its default of 10). *)
Definition initial_metrics : metrics_t :=
  {| active_clients := 0; total_requests := 0;
     average_response_time := PyFloat.of_int 0;
     recent_requests := []; cache_enabled := true;
     cache_hits := 0; cache_misses := 0; response_times := [];
     unique_sessions := 0; thread_pool_size := 10; queue_size := 0;
     latency_trend := [];
     status_codes := <["200" := 0]> (<["400" := 0]> (<["404" := 0]> (<["500" := 0]> ∅)));
     geo := ∅ |}.

Definition initial_world : world :=
  {| metrics := initial_metrics; session_data := []; file_cache := ∅ |}.

Definition set_metrics (f : metrics_t -> metrics_t) (w : world) : world :=
  {| metrics := f (metrics w); session_data := session_data w;
     file_cache := file_cache w |}.

(** [l[-n:]] for [n > 0]. *)
Definition last_n {A} (n : nat) (l : list A) : list A :=
  drop (length l - n)%nat l.

(** [if k not in d: d[k] = 0] followed by [d[k] += 1]. *)
Definition bump (k : string) (d : gmap string Z) : gmap string Z :=
  let d1 := match d !! k with None => <[k := 0]> d | Some _ => d end in
  <[k := default 0 (d1 !! k) + 1]> d1.

(** ** Pure helpers *)

Definition detect_device (ua : string) : string :=
  let ua := PyStr.lower ua in
  if PyStr.contains "mobile" ua || PyStr.contains "android" ua
     || PyStr.contains "iphone" ua then "mobile"
  else if PyStr.contains "tablet" ua || PyStr.contains "ipad" ua then "tablet"
  else "desktop".

Fixpoint sum_ord (s : string) : Z :=
  match s with
  | EmptyString => 0
  | String c s' => PyStr.ord c + sum_ord s'
  end.

Definition guess_country_from_ip (ip : string) : string :=
  let buckets := ["IN"; "US"; "GB"; "DE"; "FR"; "AU"; "BR"] in
  let idx := sum_ord ip mod Z.of_nat (length buckets) in
  nth (Z.to_nat idx) buckets "".

(** ** [WebServer.record] *)

(** What one call of [record] reads besides the state: its arguments, the
    clock ([now()], read once per call in the model) and the identifier
    [uuid.uuid4().hex[:16]] it would give a new session. *)
Record record_call := RecordCall {
  rc_ip : string;
  rc_path : string;
  rc_rt : float;
  rc_status_code : Z;
  rc_device : string;
  rc_now : string;
  rc_uuid : string
}.

Definition average (times : list float) : float :=
  match times with
  | [] => PyFloat.of_int 0 (* the handler of the division by zero *)
  | _ => (PyFloat.sum times / PyFloat.of_int (Z.of_nat (length times)))%float
  end.

Definition new_entry (c : record_call) : request_entry :=
  {| re_ip := rc_ip c; re_path := rc_path c;
     re_response_time := PyFloat.round (rc_rt c) 4;
     re_status_code := rc_status_code c;
     re_time := rc_now c;
     re_country := guess_country_from_ip (rc_ip c) |}.

Definition record_metrics (c : record_call) (m : metrics_t) : metrics_t :=
  let times := last_n MAX_TIMES (response_times m ++ [rc_rt c]) in
  {| active_clients := active_clients m;
     total_requests := total_requests m + 1;
     average_response_time := average times;
     recent_requests := take MAX_RECENT (new_entry c :: recent_requests m);
     cache_enabled := cache_enabled m;
     cache_hits := cache_hits m;
     cache_misses := cache_misses m;
     response_times := times;
     unique_sessions := unique_sessions m;
     thread_pool_size := thread_pool_size m;
     queue_size := queue_size m;
     latency_trend :=
       last_n MAX_LAT (latency_trend m ++ [(rc_rt c * PyFloat.of_int 1000)%float]);
     status_codes := bump (PyStr.str (rc_status_code c)) (status_codes m);
     geo := bump (guess_country_from_ip (rc_ip c)) (geo m) |}.

Definition record_session (c : record_call) (d : list (string * session))
  : list (string * session) :=
  let d1 :=
    if ODict.mem (rc_ip c) d then d
    else ODict.set (rc_ip c)
           {| session_id := rc_uuid c; first_seen := rc_now c;
              last_seen := rc_now c; hit_count := 0; last_path := None;
              device_type := rc_device c |} d in
  match ODict.lookup (rc_ip c) d1 with
  | Some s =>
      ODict.set (rc_ip c)
        {| session_id := session_id s; first_seen := first_seen s;
           last_seen := rc_now c; hit_count := hit_count s + 1;
           last_path := Some (rc_path c); device_type := rc_device c |} d1
  | None => d1
  end.

Definition record (c : record_call) (w : world) : world :=
  {| metrics := record_metrics c (metrics w);
     session_data := record_session c (session_data w);
     file_cache := file_cache w |}.

(** ** The environment of one handler *)

(** What [os.path.exists], [os.path.isfile] and [open(...).read()] find at a
    location. *)
Inductive fs_result :=
| FsMissing                 (* no such path, or not a regular file *)
| FsUnreadable              (* a file whose opening or reading raises *)
| FsFile (body : string).

(** What the handler does to the outside, in order. *)
Inductive io_event :=
| EvDisk (loc : string)       (* the static file at [loc] is looked up *)
| EvSend (data : string)      (* [sock.sendall(data)] is called *)
| EvClose.                    (* [sock.close()] is called *)

Record env := Env {
  env_ip : string;              (* [addr[0]] *)
  env_recv : option string;     (* the text decoded from the read, empty when
                                   nothing was read or every byte was
                                   dropped; [None] when the read raises *)
  env_send_ok : bool;           (* whether [sendall] returns *)
  env_fs : string -> fs_result;
  env_rt : float;               (* [time.time() - start] *)
  env_now : string;             (* [now()] *)
  env_uuid : string             (* [uuid.uuid4().hex[:16]] *)
}.

(** ** [WebServer.get_file] *)

Definition NOT_FOUND_BODY : string := "<h1>404 - Not Found</h1>".
Definition READ_ERROR_BODY : string := "<h1>500 - File read error</h1>".

(** [os.path.join("server", "static", path.lstrip("/"))]. *)
Definition static_location (path : string) : string :=
  String.append "server/static/" (PyStr.lstrip_slash path).

Definition add_cache_hit (m : metrics_t) : metrics_t :=
  {| active_clients := active_clients m; total_requests := total_requests m;
     average_response_time := average_response_time m;
     recent_requests := recent_requests m; cache_enabled := cache_enabled m;
     cache_hits := cache_hits m + 1; cache_misses := cache_misses m;
     response_times := response_times m; unique_sessions := unique_sessions m;
     thread_pool_size := thread_pool_size m; queue_size := queue_size m;
     latency_trend := latency_trend m; status_codes := status_codes m;
     geo := geo m |}.

Definition add_cache_miss (m : metrics_t) : metrics_t :=
  {| active_clients := active_clients m; total_requests := total_requests m;
     average_response_time := average_response_time m;
     recent_requests := recent_requests m; cache_enabled := cache_enabled m;
     cache_hits := cache_hits m; cache_misses := cache_misses m + 1;
     response_times := response_times m; unique_sessions := unique_sessions m;
     thread_pool_size := thread_pool_size m; queue_size := queue_size m;
     latency_trend := latency_trend m; status_codes := status_codes m;
     geo := geo m |}.

(** The result of [get_file]: the body, the status code, the state it leaves
    and the disk look-ups it made. *)
Record file_answer := FileAnswer {
  fa_body : string;
  fa_status : Z;
  fa_world : world;
  fa_events : list io_event
}.

(** The body the cache serves for [path]: that of its entry, when the cache
    is enabled and has one. *)
Definition cached (path : string) (w : world) : option string :=
  if cache_enabled (metrics w) then file_cache w !! path else None.

Definition get_file (fs : string -> fs_result) (path : string) (w : world)
  : file_answer :=
  match cached path w with
  | Some body =>
      {| fa_body := body; fa_status := 200;
         fa_world := set_metrics add_cache_hit w; fa_events := [] |}
  | None =>
      let w1 := set_metrics add_cache_miss w in
      let loc := static_location path in
      match fs loc with
      | FsFile body =>
          {| fa_body := body; fa_status := 200;
             fa_world :=
               if cache_enabled (metrics w1)
               then {| metrics := metrics w1; session_data := session_data w1;
                       file_cache := <[path := body]> (file_cache w1) |}
               else w1;
             fa_events := [EvDisk loc] |}
      | FsUnreadable =>
          {| fa_body := READ_ERROR_BODY; fa_status := 500;
             fa_world := w1; fa_events := [EvDisk loc] |}
      | FsMissing =>
          {| fa_body := NOT_FOUND_BODY; fa_status := 404;
             fa_world := w1; fa_events := [EvDisk loc] |}
      end
  end.

(** ** [WebServer._ensure_session_for_ip] *)

Definition set_unique_sessions (n : Z) (m : metrics_t) : metrics_t :=
  {| active_clients := active_clients m; total_requests := total_requests m;
     average_response_time := average_response_time m;
     recent_requests := recent_requests m; cache_enabled := cache_enabled m;
     cache_hits := cache_hits m; cache_misses := cache_misses m;
     response_times := response_times m; unique_sessions := n;
     thread_pool_size := thread_pool_size m; queue_size := queue_size m;
     latency_trend := latency_trend m; status_codes := status_codes m;
     geo := geo m |}.

Definition fresh_session (sid now : string) : session :=
  {| session_id := sid; first_seen := now; last_seen := now; hit_count := 0;
     last_path := None; device_type := "unknown" |}.

(** The assignment [session_data[ip] = {...}] and the update of
    [unique_sessions] that follows it. *)
Definition create_session (ip sid now : string) (w : world) : world :=
  let d := ODict.set ip (fresh_session sid now) (session_data w) in
  {| metrics := set_unique_sessions (Z.of_nat (length d)) (metrics w);
     session_data := d; file_cache := file_cache w |}.

Definition _ensure_session_for_ip (ip sid now : string) (w : world)
  : string * world :=
  match ODict.lookup ip (session_data w) with
  | Some s => (session_id s, w)
  | None => (sid, create_session ip sid now w)
  end.

(** ** [WebServer.handle_client] *)

Definition BAD_REQUEST_RESPONSE : string :=
  String.append "HTTP/1.1 400 Bad Request"
    (String.append PyStr.CRLF
       (String.append "Content-Length:11"
          (String.append PyStr.CRLF (String.append PyStr.CRLF "Bad Request")))).

(** The loop over [lines[1:]] that fills [headers]. *)
Fixpoint parse_headers (lines : list string) (headers : gmap string string)
  : gmap string string :=
  match lines with
  | [] => headers
  | line :: rest =>
      match PyStr.partition_colon line with
      | Some (k, v) => parse_headers rest (<[PyStr.strip k := PyStr.strip v]> headers)
      | None => parse_headers rest headers
      end
  end.

(** The bytes of a response that is not the fixed one. *)
Definition response_bytes (status_code : Z) (sid body : string) : string :=
  let body_bytes := PyStr.encode_utf8 body in
  let cookie :=
    String.append "Set-Cookie: SESSION_ID="
      (String.append sid (String.append "; Path=/; HttpOnly" PyStr.CRLF)) in
  let resp_headers :=
    String.append "HTTP/1.1 "
      (String.append (PyStr.str status_code)
         (String.append " "
            (String.append (if status_code =? 200 then "OK" else "")
               (String.append PyStr.CRLF
                  (String.append "Content-Type: text/html"
                     (String.append PyStr.CRLF
                        (String.append cookie
                           (String.append "Content-Length: "
                              (String.append
                                 (PyStr.str (Z.of_nat (String.length body_bytes)))
                                 (String.append PyStr.CRLF PyStr.CRLF)))))))))) in
  String.append (PyStr.encode_utf8 resp_headers) body_bytes.

Definition call_of (e : env) (path : string) (status_code : Z) (device : string)
  : record_call :=
  {| rc_ip := env_ip e; rc_path := path; rc_rt := env_rt e;
     rc_status_code := status_code; rc_device := device;
     rc_now := env_now e; rc_uuid := env_uuid e |}.

(** The body of the [try] statement: the state it leaves and what it did to
    the outside.  An exception ends it where it is raised: a failed read, a
    request line of more than three tokens (the unpacking of [parts]
    raises), a failed [sendall] of the full response. *)
Definition handle_try (e : env) (w : world) : world * list io_event :=
  match env_recv e with
  | None => (w, [])
  | Some req =>
      if String.eqb req "" then (w, [])
      else
        let lines := PyStr.split_crlf req in
        let first := hd "" lines in
        let parts := PyStr.split first in
        if (length parts <? 3)%nat then
          (record (call_of e "/" 400 "unknown") w, [EvSend BAD_REQUEST_RESPONSE])
        else
          match parts with
          | [_; path; _] =>
              let path := if String.eqb path "/" then "/index.html" else path in
              let headers := parse_headers (tl lines) ∅ in
              let a := get_file (env_fs e) path w in
              let '(sid, w2) :=
                _ensure_session_for_ip (env_ip e) (env_uuid e) (env_now e)
                  (fa_world a) in
              let sent :=
                fa_events a ++ [EvSend (response_bytes (fa_status a) sid (fa_body a))] in
              if env_send_ok e then
                let device := detect_device (default "" (headers !! "User-Agent")) in
                (record (call_of e path (fa_status a) device) w2, sent)
              else (w2, sent)
          | _ => (w, [])
          end
  end.

Definition set_active_clients (n : Z) (m : metrics_t) : metrics_t :=
  {| active_clients := n; total_requests := total_requests m;
     average_response_time := average_response_time m;
     recent_requests := recent_requests m; cache_enabled := cache_enabled m;
     cache_hits := cache_hits m; cache_misses := cache_misses m;
     response_times := response_times m; unique_sessions := unique_sessions m;
     thread_pool_size := thread_pool_size m; queue_size := queue_size m;
     latency_trend := latency_trend m; status_codes := status_codes m;
     geo := geo m |}.

(** The increment before the [try]. *)
Definition enter (w : world) : world :=
  set_metrics (fun m => set_active_clients (active_clients m + 1) m) w.

(** The decrement in the [finally]. *)
Definition leave (w : world) : world :=
  set_metrics (fun m => set_active_clients (Z.max 0 (active_clients m - 1)) m) w.

Definition handle_client (e : env) (w : world) : world * list io_event :=
  let '(w1, evs) := handle_try e (enter w) in
  (leave w1, evs ++ [EvClose]).

(** ** Percentiles *)

(** [l[i]] of Python: a negative index counts from the end, an index out of
    range raises. *)
Definition py_index {A} (l : list A) (i : Z) : option A :=
  let n := Z.of_nat (length l) in
  if (0 <=? i) && (i <? n) then l !! Z.to_nat i
  else if (- n <=? i) && (i <? 0) then l !! Z.to_nat (n + i)
  else None.

(** [statistics.quantiles(data, n=n)] of the standard library (CPython 3.8
    to 3.12), method "exclusive": [None] when it raises [StatisticsError],
    which it does on fewer than two data points. *)
Definition quantiles (data : list float) (n : Z) : option (list float) :=
  if n <? 1 then None
  else
    let data := PyFloat.sorted data in
    let ld := Z.of_nat (length data) in
    if ld <? 2 then None
    else
      let m := ld + 1 in
      Some (map (fun i =>
                   let j := i * m / n in
                   let j := if j <? 1 then 1 else if ld - 1 <? j then ld - 1 else j in
                   let delta := i * m - j * n in
                   ((nth (Z.to_nat (j - 1)) data 0 * PyFloat.of_int (n - delta)
                     + nth (Z.to_nat j) data 0 * PyFloat.of_int delta)
                    / PyFloat.of_int n)%float)
              (seqZ 1 (n - 1))).

(** The expression of the [try]: [None] when it raises, by
    [StatisticsError] or by an index out of range. *)
Definition primary_percentile (times : list float) (pct : Z) : option float :=
  match quantiles times 100 with
  | Some q =>
      match py_index q (pct - 1) with
      | Some v => Some (PyFloat.round (PyFloat.of_int 1000 * v)%float 2)
      | None => None
      end
  | None => None
  end.

Definition times_ms (times : list float) : list float :=
  PyFloat.sorted (map (fun t => (t * PyFloat.of_int 1000)%float) times).

(** [max(0, int(len(times_ms) * pct/100) - 1)]: the quotient is a float that
    [int] truncates; on integers below 2^52 that is the truncated integer
    quotient. *)
Definition fallback_index (n pct : Z) : Z :=
  Z.max 0 (Z.quot (n * pct) 100 - 1).

(** The handler of the [except]: [None] when its own indexing raises. *)
Definition fallback_percentile (times : list float) (pct : Z) : option float :=
  let ms := times_ms times in
  match py_index ms (fallback_index (Z.of_nat (length ms)) pct) with
  | Some v => Some (PyFloat.round v 2)
  | None => None
  end.

(** [_calc_percentiles(times, pct)] for an integer [pct]; [None] when the
    call raises. *)
Definition _calc_percentiles (times : list float) (pct : Z) : option float :=
  match times with
  | [] => Some (PyFloat.of_int 0)
  | _ =>
      match primary_percentile times pct with
      | Some v => Some v
      | None => fallback_percentile times pct
      end
  end.

(** ** [_get_metrics_copy] *)

Record snapshot := Snapshot {
  snap_active_clients : Z;
  snap_total_requests : Z;
  snap_average_response_time : float;
  snap_p95_ms : float;
  snap_p99_ms : float;
  snap_recent_requests : list request_entry;
  snap_cache_enabled : bool;
  snap_cache_hits : Z;
  snap_cache_misses : Z;
  snap_unique_sessions : Z;
  snap_thread_pool_size : Z;
  snap_queue_size : Z;
  snap_latency_trend : list float;
  snap_status_codes : gmap string Z;
  snap_geo : gmap string Z;
  snap_session_summary : list session
}.

Definition summary_of (s : session) : session :=
  {| session_id := session_id s; first_seen := first_seen s;
     last_seen := last_seen s; hit_count := hit_count s;
     last_path := last_path s; device_type := device_type s |}.

(** [None] when the call raises, which only [_calc_percentiles] could
    make it do. *)
Definition _get_metrics_copy (w : world) : option snapshot :=
  let m := metrics w in
  let times := response_times m in
  match _calc_percentiles times 95, _calc_percentiles times 99 with
  | Some p95, Some p99 =>
      Some {| snap_active_clients := active_clients m;
              snap_total_requests := total_requests m;
              snap_average_response_time := PyFloat.round (average_response_time m) 4;
              snap_p95_ms := p95;
              snap_p99_ms := p99;
              snap_recent_requests := take 20 (recent_requests m);
              snap_cache_enabled := cache_enabled m;
              snap_cache_hits := cache_hits m;
              snap_cache_misses := cache_misses m;
              snap_unique_sessions := Z.of_nat (length (session_data w));
              snap_thread_pool_size := thread_pool_size m;
              snap_queue_size := queue_size m;
              snap_latency_trend := last_n MAX_LAT (latency_trend m);
              snap_status_codes := status_codes m;
              snap_geo := geo m;
              snap_session_summary :=
                map summary_of (take 20 (ODict.values (session_data w))) |}
  | _, _ => None
  end.

(** ** [toggle_cache] *)

Definition set_cache_enabled (b : bool) (m : metrics_t) : metrics_t :=
  {| active_clients := active_clients m; total_requests := total_requests m;
     average_response_time := average_response_time m;
     recent_requests := recent_requests m; cache_enabled := b;
     cache_hits := cache_hits m; cache_misses := cache_misses m;
     response_times := response_times m; unique_sessions := unique_sessions m;
     thread_pool_size := thread_pool_size m; queue_size := queue_size m;
     latency_trend := latency_trend m; status_codes := status_codes m;
     geo := geo m |}.

(** The value returned and the state left. *)
Definition toggle_cache (w : world) : bool * world :=
  let enabled := negb (cache_enabled (metrics w)) in
  let m := set_cache_enabled enabled (metrics w) in
  (enabled,
   {| metrics := m; session_data := session_data w;
      file_cache := if negb (cache_enabled m) then ∅ else file_cache w |}).

(** ** A run of [record] calls, oldest first *)

Definition record_all (cs : list record_call) (w : world) : world :=
  fold_left (fun w c => record c w) cs w.

(** The request line of a read: [lines[0]]. *)
Definition request_line (req : string) : string := hd "" (PyStr.split_crlf req).

(** ** Two handlers on one session table *)

(** The steps of a handler that serves a request and touches the session
    table, in the order of the program: the test [ip in session_data] of
    [_ensure_session_for_ip], made without the lock; the assignment of a
    fresh session when the test found none; the call of [record], made under
    the lock.  Another thread can run between any two of them. *)
Inductive pc := AtCheck | AtCreate | AtRecord | Finished.

Record thread := Thread {
  th_call : record_call;   (* what this handler passes to [record] *)
  th_pc : pc
}.

Definition at_pc (p : pc) (t : thread) : thread :=
  {| th_call := th_call t; th_pc := p |}.

Definition thread_step (t : thread) (w : world) : thread * world :=
  let c := th_call t in
  match th_pc t with
  | AtCheck =>
      match ODict.lookup (rc_ip c) (session_data w) with
      | Some _ => (at_pc AtRecord t, w)
      | None => (at_pc AtCreate t, w)
      end
  | AtCreate => (at_pc AtRecord t, create_session (rc_ip c) (rc_uuid c) (rc_now c) w)
  | AtRecord => (at_pc Finished t, record c w)
  | Finished => (t, w)
  end.

(** A schedule names the thread that takes each step: [false] the first,
    [true] the second. *)
Fixpoint run_schedule (sched : list bool) (a b : thread) (w : world)
  : thread * thread * world :=
  match sched with
  | [] => (a, b, w)
  | false :: sched' =>
      let '(a', w') := thread_step a w in run_schedule sched' a' b w'
  | true :: sched' =>
      let '(b', w') := thread_step b w in run_schedule sched' a b' w'
  end.

(** One handler after the other. *)
Definition one_after_the_other : list bool :=
  [false; false; false; true; true; true].

(** The second handler tests, the first one runs to its end, the second
    one goes on. *)
Definition overlapping : list bool :=
  [true; false; false; false; true; true].

Definition hits (ip : string) (w : world) : option Z :=
  option_map hit_count (ODict.lookup ip (session_data w)).

Definition first_contact (uuid : string) : thread :=
  {| th_call :=
       {| rc_ip := "10.0.0.1"; rc_path := "/index.html"; rc_rt := 0.0625%float;
          rc_status_code := 200; rc_device := "desktop";
          rc_now := "2024-01-01 00:00:00"; rc_uuid := uuid |};
     th_pc := AtCheck |}.

Definition final_world (sched : list bool) (a b : thread) (w : world) : world :=
  snd (run_schedule sched a b w).

Definition all_finished (sched : list bool) (a b : thread) (w : world) : bool :=
  match run_schedule sched a b w with
  | (a', b', _) =>
      match th_pc a', th_pc b' with
      | Finished, Finished => true
      | _, _ => false
      end
  end.

(** ** Sample requests and environments *)

(** A static directory with one page and one file that cannot be read. *)
Definition site (loc : string) : fs_result :=
  if String.eqb loc "server/static/index.html" then FsFile "<h1>Home</h1>"
  else if String.eqb loc "server/static/locked.html" then FsUnreadable
  else FsMissing.

(** The same directory after the page was rewritten. *)
Definition site_updated (loc : string) : fs_result :=
  if String.eqb loc "server/static/index.html" then FsFile "<h1>New</h1>"
  else site loc.

(** A peer whose read gives [recv]. *)
Definition peer (recv : option string) (send_ok : bool) : env :=
  {| env_ip := "10.0.0.1"; env_recv := recv; env_send_ok := send_ok;
     env_fs := site; env_rt := 0.0625%float;
     env_now := "2024-01-01 00:00:00"; env_uuid := "0123456789abcdef" |}.

Definition lines_of (ls : list string) : string :=
  fold_right (fun l s => String.append l (String.append PyStr.CRLF s)) "" ls.

Definition home_request : string :=
  lines_of ["GET / HTTP/1.1"; "Host: localhost"; "User-Agent: Mozilla (iPhone)"; ""].

Definition short_request : string := lines_of ["GET /"; ""].

Definition long_request : string := lines_of ["GET / HTTP/1.1 extra"; ""].

(** The world after the home page was served once. *)
Definition served_once : world :=
  fst (handle_client (peer (Some home_request) true) initial_world).

(** A request that took 0.1 s, as [record] is told of it. *)
Definition tenth_of_a_second : record_call :=
  {| rc_ip := "10.0.0.1"; rc_path := "/index.html";
     rc_rt := 0x1.999999999999ap-4%float;
     rc_status_code := 200; rc_device := "desktop";
     rc_now := "2024-01-01 00:00:00"; rc_uuid := "0123456789abcdef" |}.

(** Two requests that took 3.5e-05 s each. *)
Definition thirty_five_microseconds : record_call :=
  {| rc_ip := "10.0.0.1"; rc_path := "/"; rc_rt := 0x1.2599ed7c6fbd2p-15%float;
     rc_status_code := 400; rc_device := "unknown";
     rc_now := "2024-01-01 00:00:00"; rc_uuid := "0123456789abcdef" |}.

(** ** [WebServer.get_session_summary] *)

(** [l[:n]] of Python: a negative [n] counts from the end. *)
Definition py_slice_to {A} (n : Z) (l : list A) : list A :=
  if 0 <=? n then take (Z.to_nat n) l
  else take (length l - Z.to_nat (- n)) l.

Definition get_session_summary (limit : Z) (w : world) : list session :=
  map summary_of (py_slice_to limit (ODict.values (session_data w))).

(** ** Runs of the server *)

(** The states the server reaches when handlers run one at a time, each in
    an environment that [ok] admits, with toggles of the cache in between. *)
Inductive reachable (ok : env -> Prop) : world -> Prop :=
| reach_initial : reachable ok initial_world
| reach_handle (e : env) (w : world) :
    ok e -> reachable ok w -> reachable ok (fst (handle_client e w))
| reach_toggle (w : world) :
    reachable ok w -> reachable ok (snd (toggle_cache w)).

Definition any_env (e : env) : Prop := True.

(** The handlers that see the disk [fs]. *)
Definition on_disk (fs : string -> fs_result) (e : env) : Prop :=
  forall loc, env_fs e loc = fs loc.

(** The sum of the counters of a histogram. *)
Definition histogram_total (d : gmap string Z) : Z :=
  map_fold (fun _ v acc => v + acc) 0 d.

(** The sum of the hit counts of the sessions. *)
Definition hit_total (d : list (string * session)) : Z :=
  fold_right (fun kv acc => hit_count (snd kv) + acc) 0 d.

(** The number of calls of a run that come from [ip]. *)
Definition calls_from (ip : string) (cs : list record_call) : Z :=
  Z.of_nat (length (List.filter (fun c => String.eqb (rc_ip c) ip) cs)).

(** Every body in the cache is the one the disk [fs] holds for its path. *)
Definition cache_agrees (fs : string -> fs_result) (w : world) : Prop :=
  forall path body,
    file_cache w !! path = Some body -> fs (static_location path) = FsFile body.

(** What [get_file] answers from what the disk holds. *)
Definition disk_answer (r : fs_result) : string * Z :=
  match r with
  | FsFile body => (body, 200)
  | FsUnreadable => (READ_ERROR_BODY, 500)
  | FsMissing => (NOT_FOUND_BODY, 404)
  end.

(** The number of sends among the events of a handler. *)
Definition sends (evs : list io_event) : nat :=
  length (List.filter (fun ev => match ev with EvSend _ => true | _ => false end) evs).

(** The number of closes among the events of a handler. *)
Definition closes (evs : list io_event) : nat :=
  length (List.filter (fun ev => match ev with EvClose => true | _ => false end) evs).

(** The headers a request carries: what the loop over [lines[1:]] builds. *)
Definition headers_of (req : string) : gmap string string :=
  parse_headers (tl (PyStr.split_crlf req)) ∅.

(** Whether a header line sets the key [key]. *)
Definition sets_header (key line : string) : bool :=
  match PyStr.partition_colon line with
  | Some (k, _) => String.eqb (PyStr.strip k) key
  | None => false
  end.

(** What the three windows hold in terms of the number of requests
    recorded and of the window of response times. *)
Definition windows_agree (w : world) : Prop :=
  let m := metrics w in
  0 <= total_requests m
  /\ Z.of_nat (length (response_times m)) = Z.min (total_requests m) 2000
  /\ Z.of_nat (length (latency_trend m)) = Z.min (total_requests m) 120
  /\ Z.of_nat (length (recent_requests m)) = Z.min (total_requests m) 100
  /\ latency_trend m
     = map (fun t => (t * 1000)%float) (last_n 120 (response_times m))
  /\ map re_response_time (recent_requests m)
     = map (fun t => PyFloat.round t 4) (rev (last_n 100 (response_times m))).

(** The environment [e] with another read. *)
Definition with_request (req : string) (e : env) : env :=
  {| env_ip := env_ip e; env_recv := Some req; env_send_ok := env_send_ok e;
     env_fs := env_fs e; env_rt := env_rt e; env_now := env_now e;
     env_uuid := env_uuid e |}.

(** The path a request for [p] is served under. *)
Definition served_path (p : string) : string :=
  if String.eqb p "/" then "/index.html" else p.

(** The home page asked for with another method and protocol. *)
Definition odd_request : string :=
  lines_of ["DELETE / FTP"; "Host: localhost"; "User-Agent: Mozilla (iPhone)"; ""].

(** The reads that are answered: a text that is not empty and whose
    request line has at most three tokens. *)
Definition answered (e : env) : bool :=
  match env_recv e with
  | Some req =>
      negb (String.eqb req "")
      && (length (PyStr.split (request_line req)) <=? 3)%nat
  | None => false
  end.

(** 1 when the handler is at the step [p], 0 otherwise. *)
Definition is_at (p : pc) (t : thread) : Z :=
  match p, th_pc t with
  | AtCheck, AtCheck | AtCreate, AtCreate | AtRecord, AtRecord
  | Finished, Finished => 1
  | _, _ => 0
  end.

(** What holds of two handlers of one address while they run: a session
    exists as soon as one of them is past its assignment; its hit count is
    at most the number of handlers that have finished; and once no
    assignment is pending, the hits counted and the calls of [record] still
    to come make at least one. *)
Definition race_invariant (ip ua ub : string) (a b : thread) (w : world) : Prop :=
  match ODict.lookup ip (session_data w) with
  | None =>
      ODict.entries ip (session_data w) = 0%nat
      /\ is_at AtRecord a + is_at Finished a + is_at AtRecord b + is_at Finished b = 0
  | Some s =>
      ODict.entries ip (session_data w) = 1%nat
      /\ (session_id s = ua \/ session_id s = ub)
      /\ 0 <= hit_count s <= is_at Finished a + is_at Finished b
      /\ (is_at AtCreate a + is_at AtCreate b = 0 ->
          1 <= hit_count s + is_at AtRecord a + is_at AtRecord b)
  end.

(** What holds of them when the address had the session [s0] before they
    started: no assignment is ever pending, the session keeps its
    identifier and has one more hit for each handler that has finished. *)
Definition returning_invariant (ip : string) (s0 : session) (n0 : nat)
    (a b : thread) (w : world) : Prop :=
  match ODict.lookup ip (session_data w) with
  | None => False
  | Some s =>
      ODict.entries ip (session_data w) = n0
      /\ session_id s = session_id s0
      /\ hit_count s = hit_count s0 + is_at Finished a + is_at Finished b
      /\ is_at AtCreate a + is_at AtCreate b = 0
  end.

(** ** Binary64 arithmetic *)



(** ** Values of binary64 numbers *)

(** Values are counted in units of [2^-2200], small enough for every
    quotient of two binary64 numbers to be a ratio of integers. *)
Definition unit_exp : Z := 2200.

Definition sign_of (s : bool) : Z := if s then -1 else 1.

(** [is_val f v]: [f] is a zero or a normal number, and its value is [v]
    units. *)
Definition is_val (f : spec_float) (v : Z) : Prop :=
  match f with
  | S754_zero _ => v = 0
  | S754_finite s m e =>
      2 ^ 52 <= Zpos m < 2 ^ 53 /\ -1074 <= e <= 970
      /\ v = sign_of s * (Zpos m * 2 ^ (e + unit_exp))
  | _ => False
  end.

(** The number with a mantissa of 53 bits nearest to [a / b], ties to the
    even mantissa, for [a / b >= 2^52]. *)
Definition RQ (a b : Z) : Z :=
  let t := Z.log2 (a / b) - 52 in
  PyFloat.rne_div a (b * 2 ^ t) * 2 ^ t.




(** ** The clock *)













(** * Properties *)

(** ** Binary64 arithmetic: digits and shifts *)










(** ** Rounding a quotient to an integer *)

Lemma rne_div_cases (a b : Z) :
  0 < b ->
  let q := a / b in
  let r := a mod b in
  a = b * q + r /\ 0 <= r < b
  /\ ((PyFloat.rne_div a b = q /\ (2 * r < b \/ (2 * r = b /\ Z.even q = true)))
      \/ (PyFloat.rne_div a b = q + 1
          /\ (b < 2 * r \/ (2 * r = b /\ Z.even q = false)))).
Proof.
  intros Hb q r.
  split; [apply Z.div_mod; lia|]. split; [apply Z.mod_pos_bound; lia|].
  unfold PyFloat.rne_div. fold q r.
  destruct (Z.compare_spec (2 * r) b).
  - destruct (Z.even q) eqn:E; [left|right]; split; auto.
  - left. split; auto.
  - right. split; auto.
Qed.

Lemma div_le_cross (a1 b1 a2 b2 : Z) :
  0 < b1 -> 0 < b2 -> a1 * b2 <= a2 * b1 -> a1 / b1 <= a2 / b2.
Proof.
  intros H1 H2 H.
  pose proof (Z.div_mod a1 b1 ltac:(lia)) as E1.
  pose proof (Z.mod_pos_bound a1 b1 H1) as R1.
  pose proof (Z.div_mod a2 b2 ltac:(lia)) as E2.
  pose proof (Z.mod_pos_bound a2 b2 H2) as R2.
  set (q1 := a1 / b1) in *. set (q2 := a2 / b2) in *.
  set (r1 := a1 mod b1) in *. set (r2 := a2 mod b2) in *.
  destruct (Z.le_gt_cases q1 q2) as [|Hlt]; [assumption|exfalso].
  assert (Hq : q2 + 1 <= q1) by lia.
  assert (0 < b1 * b2) by nia.
  assert ((q2 + 1) * (b1 * b2) <= q1 * (b1 * b2)) by nia.
  assert (a2 * b1 < (q2 + 1) * (b1 * b2)) by nia.
  assert (q1 * (b1 * b2) <= a1 * b2) by nia.
  lia.
Qed.

Lemma rne_div_mono (a1 b1 a2 b2 : Z) :
  0 < b1 -> 0 < b2 -> a1 * b2 <= a2 * b1 ->
  PyFloat.rne_div a1 b1 <= PyFloat.rne_div a2 b2.
Proof.
  intros H1 H2 H.
  pose proof (div_le_cross a1 b1 a2 b2 H1 H2 H) as Hq.
  destruct (rne_div_cases a1 b1 H1) as (E1 & R1 & C1).
  destruct (rne_div_cases a2 b2 H2) as (E2 & R2 & C2).
  set (q1 := a1 / b1) in *. set (q2 := a2 / b2) in *.
  set (r1 := a1 mod b1) in *. set (r2 := a2 mod b2) in *.
  destruct (Z.eq_dec q1 q2) as [Heq|Hne].
  - assert (Hr : r1 * b2 <= r2 * b1) by nia.
    destruct C1 as [[-> _]|[-> C1]]; destruct C2 as [[-> C2]|[-> _]]; try lia.
    exfalso. rewrite <- Heq in C2.
    destruct C1 as [C1|[C1 Ev1]]; destruct C2 as [C2|[C2 Ev2]];
      try congruence; nia.
  - destruct C1 as [[-> _]|[-> _]]; destruct C2 as [[-> _]|[-> _]]; lia.
Qed.


Lemma rne_div_exact (k b : Z) : 0 < b -> PyFloat.rne_div (k * b) b = k.
Proof.
  intros Hb. unfold PyFloat.rne_div.
  rewrite Z.mod_mul, Z.div_mul by lia.
  destruct (Z.compare_spec (2 * 0) b); (reflexivity || lia).
Qed.

Lemma rne_div_bounds (a b lo hi : Z) :
  0 < b -> lo * b <= a <= hi * b -> lo <= PyFloat.rne_div a b <= hi.
Proof.
  intros Hb [Hlo Hhi]. split.
  - rewrite <- (rne_div_exact lo b Hb). apply rne_div_mono; nia.
  - rewrite <- (rne_div_exact hi b Hb). apply rne_div_mono; nia.
Qed.

(** ** The binary64 number nearest to a quotient *)

Lemma pow2_pos (n : Z) : 0 <= n -> 0 < 2 ^ n.
Proof. intros. apply Z.pow_pos_nonneg; lia. Qed.


(** The binade of a quotient: [t] with [2^(52+t) <= a/b < 2^(53+t)]. *)
Lemma binade_spec (a b : Z) :
  0 < b -> 2 ^ 52 * b <= a ->
  let t := Z.log2 (a / b) - 52 in
  0 <= t /\ 2 ^ (52 + t) * b <= a < 2 ^ (53 + t) * b.
Proof.
  intros Hb Ha t.
  assert (Hq : 2 ^ 52 <= a / b) by (apply Z.div_le_lower_bound; lia).
  assert (Hpos : 0 < a / b) by (pose proof (pow2_pos 52); lia).
  pose proof (Z.log2_spec (a / b) Hpos) as [Hl Hu].
  assert (52 <= Z.log2 (a / b)).
  { apply Z.log2_le_pow2; [assumption|]. assumption. }
  split; [unfold t; lia|].
  replace (52 + t) with (Z.log2 (a / b)) by (unfold t; lia).
  replace (53 + t) with (Z.succ (Z.log2 (a / b))) by (unfold t; lia).
  pose proof (Z.div_mod a b ltac:(lia)) as E.
  pose proof (Z.mod_pos_bound a b Hb) as R.
  split; [nia|].
  assert (a / b + 1 <= 2 ^ Z.succ (Z.log2 (a / b))) by lia. nia.
Qed.

Lemma binade_unique (a b t : Z) :
  0 < b -> 0 <= t -> 2 ^ (52 + t) * b <= a < 2 ^ (53 + t) * b ->
  Z.log2 (a / b) - 52 = t.
Proof.
  intros Hb Ht [Hl Hu].
  assert (Z.log2 (a / b) = 52 + t); [|lia].
  apply Z.log2_unique; [lia|]. split.
  - apply Z.div_le_lower_bound; lia.
  - replace (Z.succ (52 + t)) with (53 + t) by lia.
    apply Z.div_lt_upper_bound; lia.
Qed.

Lemma RQ_unfold (a b t : Z) :
  0 < b -> 0 <= t -> 2 ^ (52 + t) * b <= a < 2 ^ (53 + t) * b ->
  RQ a b = PyFloat.rne_div a (b * 2 ^ t) * 2 ^ t
  /\ 2 ^ 52 <= PyFloat.rne_div a (b * 2 ^ t) <= 2 ^ 53.
Proof.
  intros Hb Ht Ha. unfold RQ. rewrite (binade_unique a b t Hb Ht Ha).
  split; [reflexivity|].
  pose proof (pow2_pos t Ht).
  apply rne_div_bounds; [nia|].
  rewrite !Z.pow_add_r in Ha by lia. nia.
Qed.

Lemma RQ_mono (a1 b1 a2 b2 : Z) :
  0 < b1 -> 0 < b2 -> 2 ^ 52 * b1 <= a1 -> a1 * b2 <= a2 * b1 ->
  RQ a1 b1 <= RQ a2 b2.
Proof.
  intros H1 H2 Hlo H.
  assert (Hlo2 : 2 ^ 52 * b2 <= a2) by nia.
  destruct (binade_spec a1 b1 H1 Hlo) as [Ht1 Hb1].
  destruct (binade_spec a2 b2 H2 Hlo2) as [Ht2 Hb2].
  set (t1 := Z.log2 (a1 / b1) - 52) in *.
  set (t2 := Z.log2 (a2 / b2) - 52) in *.
  destruct (RQ_unfold a1 b1 t1 H1 Ht1 Hb1) as [-> R1].
  destruct (RQ_unfold a2 b2 t2 H2 Ht2 Hb2) as [-> R2].
  assert (Hle : t1 <= t2).
  { unfold t1, t2.
    pose proof (Z.log2_le_mono (a1 / b1) (a2 / b2)
                  (div_le_cross _ _ _ _ H1 H2 H)). lia. }
  pose proof (pow2_pos t1 Ht1). pose proof (pow2_pos t2 Ht2).
  destruct (Z.eq_dec t1 t2) as [E|NE].
  - rewrite <- E in *.
    assert (PyFloat.rne_div a1 (b1 * 2 ^ t1) <= PyFloat.rne_div a2 (b2 * 2 ^ t1))
      by (apply rne_div_mono; nia).
    nia.
  - assert (2 * 2 ^ t1 <= 2 ^ t2).
    { replace t2 with (1 + t1 + (t2 - t1 - 1)) by lia.
      rewrite !Z.pow_add_r by lia. change (2 ^ 1) with 2.
      pose proof (pow2_pos (t2 - t1 - 1) ltac:(lia)). nia. }
    change (2 ^ 53) with (2 * 2 ^ 52) in R1.
    assert (0 < 2 ^ 52) by (apply pow2_pos; lia).
    nia.
Qed.

Lemma RQ_frac_eq (a1 b1 a2 b2 : Z) :
  0 < b1 -> 0 < b2 -> 2 ^ 52 * b1 <= a1 -> a1 * b2 = a2 * b1 ->
  RQ a1 b1 = RQ a2 b2.
Proof.
  intros H1 H2 Hlo H. apply Z.le_antisymm; apply RQ_mono; try lia; nia.
Qed.



(** ** [binary_round_aux] rounds to nearest *)





(** ** The order of binary64 numbers is the order of their values *)









(** ** [binary_round] and [binary_normalize] *)









(** ** The operations *)











(** ** Floats *)



Lemma is_val_unique (f : spec_float) (v v' : Z) : is_val f v -> is_val f v' -> v = v'.
Proof.
  destruct f as [s| | |s m e]; try contradiction; cbn [is_val].
  - congruence.
  - intros (_ & _ & ->) (_ & _ & ->). reflexivity.
Qed.






(** ** [round(x, 2)] *)








(** ** Rolling windows *)

Section Windows.
Context {A : Type}.
Implicit Types l k : list A.


Lemma last_n_short n l : (length l <= n)%nat -> last_n n l = l.
Proof.
  intros H. unfold last_n.
  replace (length l - n)%nat with 0%nat by lia. reflexivity.
Qed.


Lemma last_n_app_last_n n l k : last_n n (last_n n l ++ k) = last_n n (l ++ k).
Proof.
  unfold last_n. rewrite !length_app, length_drop.
  destruct (Nat.le_gt_cases (length l) n) as [Hle|Hgt].
  - replace (length l - n)%nat with 0%nat by lia. simpl.
    now rewrite Nat.sub_0_r.
  - replace (length l - (length l - n) + length k - n)%nat with (length k) by lia.
    replace (length l + length k - n)%nat
      with ((length l - n) + length k)%nat by lia.
    rewrite <- drop_drop. f_equal.
    rewrite drop_app_le by lia. reflexivity.
Qed.

Lemma take_app_take n l k : take n (l ++ take n k) = take n (l ++ k).
Proof.
  rewrite !take_app, take_take. f_equal. f_equal. lia.
Qed.
End Windows.

Lemma recent_requests_record c w :
  recent_requests (metrics (record c w))
  = take MAX_RECENT (new_entry c :: recent_requests (metrics w)).
Proof. reflexivity. Qed.

Lemma record_all_snoc cs c w :
  record_all (cs ++ [c]) w = record c (record_all cs w).
Proof. unfold record_all. now rewrite fold_left_app. Qed.

Lemma take_recent_requests_record_all cs : forall w,
  take MAX_RECENT (recent_requests (metrics (record_all cs w)))
  = take MAX_RECENT (rev (map new_entry cs) ++ recent_requests (metrics w)).
Proof.
  induction cs as [|c cs IH]; intros w; [reflexivity|].
  change (record_all (c :: cs) w) with (record_all cs (record c w)).
  rewrite IH, recent_requests_record, take_app_take.
  simpl. now rewrite <- app_assoc.
Qed.

(** C4: after every [record], whatever the run of calls before it, the log
    of recent requests is the new entry put in front of the previous log and
    cut to [MAX_RECENT] = 100 entries; it holds at most 100 entries, and it
    lists the entries of the run newest first, ahead of what the log held
    before the run. *)
Theorem C4_recent_log_bounded_newest_first (cs : list record_call)
    (c : record_call) (w : world) :
  let before := record_all cs w in
  let after := record_all (cs ++ [c]) w in
  recent_requests (metrics after)
    = take 100 (new_entry c :: recent_requests (metrics before))
  /\ (length (recent_requests (metrics after)) <= 100)%nat
  /\ recent_requests (metrics after)
     = take 100 (rev (map new_entry (cs ++ [c])) ++ recent_requests (metrics w)).
Proof.
  cbv zeta. rewrite record_all_snoc, recent_requests_record.
  split; [reflexivity|]. split.
  - rewrite length_take. unfold MAX_RECENT. lia.
  - change (new_entry c :: recent_requests (metrics (record_all cs w)))
      with ([new_entry c] ++ recent_requests (metrics (record_all cs w))).
    rewrite <- take_app_take, take_recent_requests_record_all, take_app_take.
    rewrite map_app, rev_app_distr. reflexivity.
Qed.

(** ** The response-time window and its average *)





(** The samples have to be what the clock gives: 0.1 s is no whole number
    of ticks of 2^-22 s, so no difference of two readings of the clock, and
    three such samples give a window whose every element is 0.1 and an
    average of 0.10000000000000002. *)
Example unmeasured_average_above_max :
  let w := record_all [tenth_of_a_second; tenth_of_a_second; tenth_of_a_second]
             initial_world in
  response_times (metrics w)
    = [0x1.999999999999ap-4; 0x1.999999999999ap-4; 0x1.999999999999ap-4]%float
  /\ average_response_time (metrics w) = 0x1.999999999999bp-4%float
  /\ (0x1.999999999999ap-4 <? average_response_time (metrics w))%float = true.
Proof. vm_compute. repeat split. Qed.

(** ** Floats on the grid of the clock *)






Lemma grid_range (k : Z) :
  0 <= k < 2 ^ 53 ->
  unit_exp - 1000 <= unit_exp - 22 <= unit_exp + 947.
Proof. unfold unit_exp. lia. Qed.

(** ** The sum and the average of a window *)











(** ** Least and greatest samples *)








(** ** Percentiles *)

Lemma length_insert_sorted x l :
  length (PyFloat.insert_sorted x l) = S (length l).
Proof.
  induction l as [|y l IH]; simpl; [reflexivity|].
  destruct (y <? x)%float; simpl; [now rewrite IH|reflexivity].
Qed.

Lemma length_sorted l : length (PyFloat.sorted l) = length l.
Proof.
  induction l as [|x l IH]; simpl; [reflexivity|].
  now rewrite length_insert_sorted, IH.
Qed.

Lemma length_times_ms times : length (times_ms times) = length times.
Proof. unfold times_ms. now rewrite length_sorted, length_map. Qed.

Lemma py_index_nonneg {A} (l : list A) (i : Z) :
  0 <= i -> py_index l i = l !! Z.to_nat i.
Proof.
  intros Hi. unfold py_index.
  destruct (Z.leb_spec 0 i); [|lia].
  destruct (Z.ltb_spec i (Z.of_nat (length l))); simpl; [reflexivity|].
  destruct (Z.ltb_spec i 0); [lia|].
  rewrite andb_false_r. symmetry. apply lookup_ge_None. lia.
Qed.

Lemma quantiles_few data :
  (length data < 2)%nat -> quantiles data 100 = None.
Proof.
  intros H. unfold quantiles. rewrite length_sorted.
  change (100 <? 1) with false. cbv iota.
  destruct (Z.ltb_spec (Z.of_nat (length data)) 2); [reflexivity|lia].
Qed.

Lemma quantiles_many data :
  (2 <= length data)%nat ->
  exists q, quantiles data 100 = Some q /\ length q = 99%nat.
Proof.
  intros H. unfold quantiles. rewrite length_sorted.
  change (100 <? 1) with false. cbv iota.
  destruct (Z.ltb_spec (Z.of_nat (length data)) 2); [lia|].
  eexists. split; [reflexivity|].
  now rewrite length_map, length_seqZ.
Qed.

(** With a percentile from 1 to 99 the expression of the [try] raises
    exactly on the lists of fewer than two samples. *)
Lemma primary_percentile_none times pct :
  1 <= pct <= 99 ->
  primary_percentile times pct = None <-> (length times < 2)%nat.
Proof.
  intros Hp. unfold primary_percentile. split.
  - intros H. destruct (Nat.lt_ge_cases (length times) 2) as [|Hge]; [assumption|].
    destruct (quantiles_many times Hge) as (q & Hq & Hlen).
    rewrite Hq in H. rewrite py_index_nonneg in H by lia.
    destruct (lookup_lt_is_Some_2 q (Z.to_nat (pct - 1))) as [v Hv]; [lia|].
    rewrite Hv in H. discriminate.
  - intros H. now rewrite quantiles_few.
Qed.

Lemma fallback_percentile_nonneg times pct :
  0 <= pct ->
  fallback_percentile times pct
  = option_map (fun v => PyFloat.round v 2)
      (times_ms times
         !! Z.to_nat (Z.max 0 (Z.of_nat (length times) * pct / 100 - 1))).
Proof.
  intros Hp. unfold fallback_percentile, fallback_index.
  rewrite length_times_ms, Z.quot_div_nonneg by lia.
  rewrite py_index_nonneg by lia.
  now destruct (times_ms times !! _).
Qed.

Lemma calc_percentiles_total times pct :
  1 <= pct <= 99 -> is_Some (_calc_percentiles times pct).
Proof.
  intros Hp. unfold _calc_percentiles.
  destruct times as [|t times]; [now eexists|].
  destruct (primary_percentile (t :: times) pct) as [v|] eqn:Hprim; [now eexists|].
  apply primary_percentile_none in Hprim; [|assumption].
  destruct times as [|]; [|simpl in Hprim; lia].
  rewrite fallback_percentile_nonneg by lia.
  simpl length.
  replace (Z.to_nat _) with 0%nat.
  - unfold times_ms. simpl. now eexists.
  - assert (Z.of_nat 1 * pct / 100 = 0) by (apply Z.div_small; lia). lia.
Qed.

Lemma fallback_index_floor n pct :
  0 <= n -> fallback_index n pct = Z.max 0 (n * pct / 100 - 1).
Proof.
  intros Hn. unfold fallback_index.
  destruct (Z.le_gt_cases 0 (n * pct)) as [Hnp|Hnp].
  - now rewrite Z.quot_div_nonneg by lia.
  - assert (Z.quot (n * pct) 100 <= 0) by (apply Z.quot_le_upper_bound; lia).
    assert (n * pct / 100 < 0) by (apply Z.div_lt_upper_bound; lia).
    lia.
Qed.

Lemma fallback_percentile_floor times pct :
  fallback_percentile times pct
  = option_map (fun v => PyFloat.round v 2)
      (times_ms times
         !! Z.to_nat (Z.max 0 (Z.of_nat (length times) * pct / 100 - 1))).
Proof.
  unfold fallback_percentile.
  rewrite length_times_ms, fallback_index_floor by lia.
  rewrite py_index_nonneg by lia.
  now destruct (times_ms times !! _).
Qed.

(** C2, as the code has it: on a non-empty list for which the expression
    of the [try] raises, [_calc_percentiles] returns the element of the
    sorted samples in milliseconds at index [max(0, floor(n*p/100) - 1)],
    rounded to two decimals (and raises when that index is past the end);
    for a percentile from 1 to 99 such a list has a single sample and that
    index is [floor(n*p/100)] = 0. *)
Theorem C2_fallback_index_and_rounding (times : list float) (pct : Z) :
  times <> [] ->
  primary_percentile times pct = None ->
  let n := Z.of_nat (length times) in
  _calc_percentiles times pct
  = option_map (fun v => PyFloat.round v 2)
      (times_ms times !! Z.to_nat (Z.max 0 (n * pct / 100 - 1)))
  /\ (1 <= pct <= 99 ->
      n = 1 /\ Z.max 0 (n * pct / 100 - 1) = n * pct / 100).
Proof.
  intros Hne Hprim n. split.
  - unfold _calc_percentiles. destruct times as [|t times]; [congruence|].
    rewrite Hprim. apply fallback_percentile_floor.
  - intros Hp. apply primary_percentile_none in Hprim; [|assumption].
    assert (Hn : n = 1) by (destruct times; [congruence|]; simpl in *; lia).
    split; [assumption|]. rewrite Hn.
    assert (1 * pct / 100 = 0) by (apply Z.div_small; lia). lia.
Qed.

Lemma C2_fallback_index_and_rounding_witness :
  [0x1p-10%float] <> []
  /\ primary_percentile [0x1p-10%float] 95 = None
  /\ _calc_percentiles [0x1p-10%float] 95
     = option_map (fun v => PyFloat.round v 2)
         (times_ms [0x1p-10%float] !! Z.to_nat (Z.max 0 (1 * 95 / 100 - 1)))
  /\ (1 <= 95 <= 99 -> 1 = 1 /\ Z.max 0 (1 * 95 / 100 - 1) = 1 * 95 / 100).
Proof.
  assert (Hne : [0x1p-10%float] <> []) by discriminate.
  assert (Hprim : primary_percentile [0x1p-10%float] 95 = None) by reflexivity.
  split; [exact Hne|]. split; [exact Hprim|].
  exact (C2_fallback_index_and_rounding [0x1p-10%float] 95 Hne Hprim).
Defined.

(** C2 fails as stated: for the single sample 2^-10 s and the 95th
    percentile the expression of the [try] raises, the element of the
    sorted samples in milliseconds at index [floor(1*95/100)] = 0 is
    0.9765625, and the value returned is 0.98.  For the samples 1 s and 2 s
    and the 100th percentile the expression of the [try] raises too, the
    sorted samples have no element at index [floor(2*100/100)] = 2, and the
    value returned is the element at index 1. *)
Lemma C2_fallback_returns_rounded :
  primary_percentile [0x1p-10%float] 95 = None
  /\ times_ms [0x1p-10%float] !! Z.to_nat (1 * 95 / 100) = Some 0.9765625%float
  /\ _calc_percentiles [0x1p-10%float] 95 = Some 0x1.f5c28f5c28f5cp-1%float
  /\ (0x1.f5c28f5c28f5cp-1 =? 0.9765625)%float = false
  /\ primary_percentile [1%float; 2%float] 100 = None
  /\ times_ms [1%float; 2%float] !! Z.to_nat (2 * 100 / 100) = None
  /\ times_ms [1%float; 2%float] !! 1%nat = Some 2000%float
  /\ _calc_percentiles [1%float; 2%float] 100 = Some 2000%float.
Proof. vm_compute. repeat split. Qed.

(** ** The snapshot *)

Lemma get_metrics_copy_total w : is_Some (_get_metrics_copy w).
Proof.
  unfold _get_metrics_copy.
  destruct (calc_percentiles_total (response_times (metrics w)) 95) as [p95 ->]; [lia|].
  destruct (calc_percentiles_total (response_times (metrics w)) 99) as [p99 ->]; [lia|].
  now eexists.
Qed.


(** The samples have to be what the clock gives: 3.5e-05 s is no whole
    number of ticks of 2^-22 s, and on the window of two such samples the
    products and the sum of the interpolation are rounded, so that the
    snapshot reports p95 = 0.04 and p99 = 0.03. *)
Example unmeasured_p95_above_p99 :
  let w := record_all [thirty_five_microseconds; thirty_five_microseconds]
             initial_world in
  response_times (metrics w)
    = [0x1.2599ed7c6fbd2p-15; 0x1.2599ed7c6fbd2p-15]%float
  /\ option_map snap_p95_ms (_get_metrics_copy w) = Some 0x1.47ae147ae147bp-5%float
  /\ option_map snap_p99_ms (_get_metrics_copy w) = Some 0x1.eb851eb851eb8p-6%float
  /\ (0x1.eb851eb851eb8p-6 <? 0x1.47ae147ae147bp-5)%float = true.
Proof. vm_compute. repeat split. Qed.

(** ** Sorting floats on the grid *)






(** ** The cut points of [statistics.quantiles] *)




(** ** The value of a percentile *)












(** C10: every snapshot is returned, and it holds the first 20 entries of
    the log of recent requests (the newest ones) and the summaries of the
    first 20 sessions in order of insertion, so at most 20 of each, whatever
    the log and the session table hold. *)
Theorem C10_snapshot_lists_bounded (w : world) :
  exists snap,
    _get_metrics_copy w = Some snap
    /\ snap_recent_requests snap = take 20 (recent_requests (metrics w))
    /\ (length (snap_recent_requests snap) <= 20)%nat
    /\ snap_session_summary snap
       = map summary_of (take 20 (ODict.values (session_data w)))
    /\ (length (snap_session_summary snap) <= 20)%nat.
Proof.
  destruct (get_metrics_copy_total w) as [snap Hsnap].
  exists snap. split; [assumption|].
  unfold _get_metrics_copy in Hsnap. cbv zeta in Hsnap.
  destruct (_calc_percentiles (response_times (metrics w)) 95); [|discriminate].
  destruct (_calc_percentiles (response_times (metrics w)) 99); [|discriminate].
  injection Hsnap as <-. simpl.
  split; [reflexivity|]. split; [rewrite length_take; lia|].
  split; [reflexivity|]. rewrite length_map, length_take. lia.
Qed.

(** ** Dictionaries *)

Section ODictFacts.
Context {V : Type}.
Implicit Types d : list (string * V).

Lemma lookup_set_eq k v d : ODict.lookup k (ODict.set k v d) = Some v.
Proof.
  induction d as [|[k' v'] d IH]; simpl.
  - now rewrite String.eqb_refl.
  - destruct (String.eqb k k') eqn:E; simpl; rewrite ?String.eqb_refl, ?E; auto.
Qed.

Lemma lookup_set_ne k k' v d :
  k <> k' -> ODict.lookup k' (ODict.set k v d) = ODict.lookup k' d.
Proof.
  intros Hne. induction d as [|[k0 v0] d IH]; simpl.
  - destruct (String.eqb_spec k' k); [congruence|reflexivity].
  - destruct (String.eqb_spec k k0) as [->|]; simpl.
    + destruct (String.eqb_spec k' k0); [congruence|reflexivity].
    + now rewrite IH.
Qed.

Lemma entries_set_absent k v d :
  ODict.lookup k d = None -> ODict.entries k (ODict.set k v d) = 1%nat.
Proof.
  unfold ODict.entries. induction d as [|[k' v'] d IH]; simpl; intros H.
  - now rewrite String.eqb_refl.
  - destruct (String.eqb k k') eqn:E; [discriminate|].
    simpl. rewrite E. auto.
Qed.

Lemma entries_set_present k v d :
  ODict.lookup k d <> None -> ODict.entries k (ODict.set k v d) = ODict.entries k d.
Proof.
  unfold ODict.entries. induction d as [|[k' v'] d IH]; simpl; intros H.
  - congruence.
  - destruct (String.eqb k k') eqn:E; simpl.
    + now rewrite String.eqb_refl.
    + rewrite E. auto.
Qed.
End ODictFacts.

Lemma bump_lookup_eq k (d : gmap string Z) :
  bump k d !! k = Some (default 0 (d !! k) + 1).
Proof.
  unfold bump. rewrite lookup_insert_eq.
  destruct (d !! k) as [n|] eqn:E; [now rewrite E|].
  now rewrite lookup_insert_eq.
Qed.


(** What [record] leaves in the session of the peer. *)
Lemma record_session_lookup c d :
  exists s,
    ODict.lookup (rc_ip c) (record_session c d) = Some s
    /\ device_type s = rc_device c
    /\ last_path s = Some (rc_path c)
    /\ hit_count s
       = match ODict.lookup (rc_ip c) d with
         | Some s0 => hit_count s0 + 1
         | None => 1
         end.
Proof.
  unfold record_session, ODict.mem.
  destruct (ODict.lookup (rc_ip c) d) as [s0|] eqn:E.
  - rewrite E. rewrite lookup_set_eq. eexists. split; [reflexivity|]. now simpl.
  - rewrite lookup_set_eq. rewrite lookup_set_eq.
    eexists. split; [reflexivity|]. now simpl.
Qed.

(** ** The handler *)

Lemma active_clients_get_file fs path w :
  active_clients (metrics (fa_world (get_file fs path w)))
  = active_clients (metrics w).
Proof.
  unfold get_file. destruct (cached path w); [reflexivity|].
  destruct (fs (static_location path)); try reflexivity.
  simpl. now destruct (cache_enabled (metrics w)).
Qed.

Lemma active_clients_ensure_session ip sid now w :
  active_clients (metrics (snd (_ensure_session_for_ip ip sid now w)))
  = active_clients (metrics w).
Proof.
  unfold _ensure_session_for_ip.
  now destruct (ODict.lookup ip (session_data w)).
Qed.

(** Nothing in the [try] changes the counter of active clients. *)
Lemma active_clients_handle_try e w :
  active_clients (metrics (fst (handle_try e w))) = active_clients (metrics w).
Proof.
  unfold handle_try.
  destruct (env_recv e) as [req|]; [|reflexivity].
  destruct (String.eqb req ""); [reflexivity|].
  destruct (length _ <? 3)%nat; [reflexivity|].
  destruct (PyStr.split _) as [|m [|path [|proto [|]]]]; try reflexivity.
  set (p := if String.eqb path "/" then "/index.html" else path).
  pose proof (active_clients_ensure_session (env_ip e) (env_uuid e) (env_now e)
                (fa_world (get_file (env_fs e) p w))) as Hs.
  destruct (_ensure_session_for_ip _ _ _ _) as [sid w2]. simpl in Hs.
  destruct (env_send_ok e); simpl; rewrite Hs; apply active_clients_get_file.
Qed.

Lemma handle_client_unfold e w :
  handle_client e w
  = (leave (fst (handle_try e (enter w))),
     snd (handle_try e (enter w)) ++ [EvClose]).
Proof. unfold handle_client. now destruct (handle_try e (enter w)). Qed.

(** The counter is never negative after a handler: it starts at 0 and the
    decrement stops at 0. *)
Lemma active_clients_nonneg e w :
  0 <= active_clients (metrics (fst (handle_client e w))).
Proof. rewrite handle_client_unfold. simpl. lia. Qed.

(** C8: whatever the handler meets (a request it serves, a malformed
    request line, an empty read, an exception), the counter of active
    clients it leaves is the counter it found, a counter that is never
    negative. *)
Theorem C8_active_clients_restored (e : env) (w : world) :
  0 <= active_clients (metrics w) ->
  active_clients (metrics (fst (handle_client e w)))
  = active_clients (metrics w).
Proof.
  intros Hpos. rewrite handle_client_unfold. simpl.
  rewrite active_clients_handle_try. simpl. lia.
Qed.



(** ** Resolution of a path *)

(** C7: when the cache does not serve the path and the look-up on disk
    fails, [get_file] returns the 404 body with status 404 if the path is
    not found and the 500 body with status 500 if the file exists and
    cannot be read; in both cases the disk was looked up once and the cache
    is left as it was, so the path is not stored in it. *)
Theorem C7_failed_resolution_not_cached (fs : string -> fs_result)
    (path : string) (w : world) :
  cached path w = None ->
  fs (static_location path) = FsMissing
    \/ fs (static_location path) = FsUnreadable ->
  let a := get_file fs path w in
  (fs (static_location path) = FsMissing ->
   fa_body a = NOT_FOUND_BODY /\ fa_status a = 404)
  /\ (fs (static_location path) = FsUnreadable ->
      fa_body a = READ_ERROR_BODY /\ fa_status a = 500)
  /\ fa_events a = [EvDisk (static_location path)]
  /\ file_cache (fa_world a) = file_cache w
  /\ cached path (fa_world a) = None.
Proof.
  intros Hmiss Hfail a. subst a. unfold get_file. rewrite Hmiss.
  destruct Hfail as [-> | ->]; simpl;
    (split; [intros; try discriminate; now split|]);
    (split; [intros; try discriminate; now split|]);
    (split; [reflexivity|]); (split; [reflexivity|]); exact Hmiss.
Qed.

Lemma C7_failed_resolution_not_cached_witness :
  cached "/nothing.html" initial_world = None
  /\ (site (static_location "/nothing.html") = FsMissing
      \/ site (static_location "/nothing.html") = FsUnreadable)
  /\ fa_status (get_file site "/nothing.html" initial_world) = 404
  /\ file_cache (fa_world (get_file site "/nothing.html" initial_world))
     = file_cache initial_world.
Proof.
  assert (Hmiss : cached "/nothing.html" initial_world = None) by reflexivity.
  assert (Hfail : site (static_location "/nothing.html") = FsMissing
                  \/ site (static_location "/nothing.html") = FsUnreadable)
    by (left; reflexivity).
  split; [exact Hmiss|]. split; [exact Hfail|].
  pose proof (C7_failed_resolution_not_cached site "/nothing.html" initial_world
                Hmiss Hfail) as (H404 & _ & _ & Hcache & _).
  split; [apply H404; reflexivity|exact Hcache].
Defined.

Lemma get_file_miss fs path w :
  cached path w = None ->
  fa_events (get_file fs path w) = [EvDisk (static_location path)]
  /\ (forall body, fs (static_location path) = FsFile body ->
      fa_body (get_file fs path w) = body /\ fa_status (get_file fs path w) = 200).
Proof.
  intros Hmiss. unfold get_file. rewrite Hmiss.
  destruct (fs (static_location path)) as [| |body0]; simpl;
    (split; [reflexivity|]); intros body Hb; try discriminate.
  injection Hb as ->. now split.
Qed.

(** C6: [toggle_cache] returns and stores the negation of the flag.  When
    that disables the cache, the cache is emptied: neither then nor after a
    second toggle that enables it again is any path served from the cache,
    every resolution looks the disk up and returns what the file holds at
    that time.  When it enables the cache, the entries are left alone. *)
Theorem C6_toggle_cache_flips_and_evicts (w : world) :
  let off := snd (toggle_cache w) in
  let on := snd (toggle_cache off) in
  fst (toggle_cache w) = negb (cache_enabled (metrics w))
  /\ cache_enabled (metrics off) = negb (cache_enabled (metrics w))
  /\ (cache_enabled (metrics w) = false -> file_cache off = file_cache w)
  /\ (cache_enabled (metrics w) = true ->
      file_cache off = ∅
      /\ cache_enabled (metrics on) = true
      /\ file_cache on = ∅
      /\ forall fs path,
           fa_events (get_file fs path off) = [EvDisk (static_location path)]
           /\ fa_events (get_file fs path on) = [EvDisk (static_location path)]
           /\ forall body, fs (static_location path) = FsFile body ->
                fa_body (get_file fs path off) = body
                /\ fa_body (get_file fs path on) = body).
Proof.
  cbv zeta. unfold toggle_cache. simpl.
  split; [reflexivity|]. split; [reflexivity|].
  split; [intros ->; reflexivity|].
  intros ->. simpl.
  split; [reflexivity|]. split; [reflexivity|]. split; [reflexivity|].
  intros fs path.
  match goal with
  | |- context [get_file fs path ?w1] =>
      destruct (get_file_miss fs path w1) as [Hev1 Hbody1]; [reflexivity|]
  end.
  match goal with
  | |- context [fa_events (get_file fs path ?w2) = _ /\ forall _, _] =>
      destruct (get_file_miss fs path w2) as [Hev2 Hbody2];
        [unfold cached; simpl; apply lookup_empty|]
  end.
  split; [exact Hev1|]. split; [exact Hev2|].
  intros body Hb. split; [apply (Hbody1 body Hb)|apply (Hbody2 body Hb)].
Qed.

(** The home page is in the cache of [served_once]; after the cache was
    toggled off and on again, resolving it reads the rewritten file. *)
Lemma C6_toggle_cache_flips_and_evicts_witness :
  cached "/index.html" served_once = Some "<h1>Home</h1>"
  /\ cache_enabled (metrics served_once) = true
  /\ site_updated (static_location "/index.html") = FsFile "<h1>New</h1>"
  /\ fa_body (get_file site_updated "/index.html"
               (snd (toggle_cache (snd (toggle_cache served_once)))))
     = "<h1>New</h1>".
Proof.
  assert (Hon : cache_enabled (metrics served_once) = true) by reflexivity.
  assert (Hfile : site_updated (static_location "/index.html") = FsFile "<h1>New</h1>")
    by reflexivity.
  split; [vm_compute; reflexivity|]. split; [exact Hon|]. split; [exact Hfile|].
  pose proof (C6_toggle_cache_flips_and_evicts served_once) as (_ & _ & _ & H).
  destruct (H Hon) as (_ & _ & _ & Hres).
  destruct (Hres site_updated "/index.html") as (_ & _ & Hbody).
  exact (proj2 (Hbody _ Hfile)).
Defined.

(** ** The handler on the sample requests *)



Lemma C8_active_clients_restored_witness :
  0 <= active_clients (metrics served_once)
  /\ active_clients
       (metrics (fst (handle_client (peer (Some long_request) true) served_once)))
     = active_clients (metrics served_once).
Proof.
  assert (H : 0 <= active_clients (metrics served_once)) by (vm_compute; discriminate).
  split; [exact H|].
  exact (C8_active_clients_restored (peer (Some long_request) true) served_once H).
Defined.

(** ** Two first contacts from one address *)

(** A handler that is not interrupted does [_ensure_session_for_ip] and
    then [record]. *)
Lemma run_alone c w :
  final_world [false; false; false] {| th_call := c; th_pc := AtCheck |}
    {| th_call := c; th_pc := Finished |} w
  = record c (snd (_ensure_session_for_ip (rc_ip c) (rc_uuid c) (rc_now c) w)).
Proof.
  unfold final_world, _ensure_session_for_ip. simpl. unfold thread_step. simpl.
  destruct (ODict.lookup (rc_ip c) (session_data w)) eqn:E; simpl.
  - reflexivity.
  - reflexivity.
Qed.

Lemma lookup_create_session ip sid now w :
  ODict.lookup ip (session_data (create_session ip sid now w))
  = Some (fresh_session sid now).
Proof. apply lookup_set_eq. Qed.

Lemma hits_record ip c w :
  rc_ip c = ip ->
  hits ip (record c w) = Some (default 0 (hits ip w) + 1).
Proof.
  intros <-. unfold hits. simpl.
  destruct (record_session_lookup c (session_data w)) as (s & -> & _ & _ & Hhit).
  simpl. rewrite Hhit. now destruct (ODict.lookup (rc_ip c) (session_data w)).
Qed.

Lemma entries_record ip c w :
  rc_ip c = ip ->
  ODict.lookup ip (session_data w) <> None ->
  ODict.entries ip (session_data (record c w)) = ODict.entries ip (session_data w).
Proof.
  intros <- Hin. simpl. unfold record_session, ODict.mem.
  destruct (ODict.lookup (rc_ip c) (session_data w)) as [s|] eqn:E; [|congruence].
  rewrite E. apply entries_set_present. congruence.
Qed.

Lemma session_id_record ip c w s :
  rc_ip c = ip ->
  ODict.lookup ip (session_data w) = Some s ->
  option_map session_id (ODict.lookup ip (session_data (record c w)))
  = Some (session_id s).
Proof.
  intros <- Hs. simpl. unfold record_session, ODict.mem.
  rewrite Hs, Hs, lookup_set_eq. reflexivity.
Qed.

Lemma run_overlapping ca cb w :
  rc_ip cb = rc_ip ca ->
  ODict.lookup (rc_ip ca) (session_data w) = None ->
  run_schedule overlapping {| th_call := ca; th_pc := AtCheck |}
    {| th_call := cb; th_pc := AtCheck |} w
  = ({| th_call := ca; th_pc := Finished |},
     {| th_call := cb; th_pc := Finished |},
     record cb
       (create_session (rc_ip cb) (rc_uuid cb) (rc_now cb)
          (record ca (create_session (rc_ip ca) (rc_uuid ca) (rc_now ca) w)))).
Proof.
  intros Hip Hnone. unfold overlapping.
  cbn [run_schedule thread_step th_pc th_call at_pc].
  rewrite Hip, Hnone.
  cbn [run_schedule thread_step th_pc th_call at_pc].
  rewrite Hnone.
  cbn [run_schedule thread_step th_pc th_call at_pc].
  now rewrite Hip.
Qed.

Lemma run_one_after_the_other ca cb w :
  rc_ip cb = rc_ip ca ->
  ODict.lookup (rc_ip ca) (session_data w) = None ->
  run_schedule one_after_the_other {| th_call := ca; th_pc := AtCheck |}
    {| th_call := cb; th_pc := AtCheck |} w
  = ({| th_call := ca; th_pc := Finished |},
     {| th_call := cb; th_pc := Finished |},
     record cb (record ca (create_session (rc_ip ca) (rc_uuid ca) (rc_now ca) w))).
Proof.
  intros Hip Hnone. unfold one_after_the_other.
  cbn [run_schedule thread_step th_pc th_call at_pc].
  rewrite Hnone.
  cbn [run_schedule thread_step th_pc th_call at_pc].
  rewrite Hip.
  destruct (record_session_lookup ca
              (session_data (create_session (rc_ip ca) (rc_uuid ca) (rc_now ca) w)))
    as (s & Hs & _).
  cbn [session_data record] in *. rewrite Hs.
  reflexivity.
Qed.

(** C9 fails on the code: two handlers meet an address that has no session
    yet.  When the second one makes its test [ip in session_data] before
    the first one has stored its session, and stores its own after the
    first one has recorded its request, both finish, the table holds one
    session for the address, and its hit count is 1, under the identifier
    the second handler drew; run one after the other the same two handlers
    leave a hit count of 2. *)
Theorem C9_overlapping_first_contacts_count_one (ca cb : record_call) (w : world) :
  rc_ip cb = rc_ip ca ->
  ODict.lookup (rc_ip ca) (session_data w) = None ->
  let a := {| th_call := ca; th_pc := AtCheck |} in
  let b := {| th_call := cb; th_pc := AtCheck |} in
  all_finished overlapping a b w = true
  /\ ODict.entries (rc_ip ca) (session_data (final_world overlapping a b w)) = 1%nat
  /\ hits (rc_ip ca) (final_world overlapping a b w) = Some 1
  /\ option_map session_id
       (ODict.lookup (rc_ip ca) (session_data (final_world overlapping a b w)))
     = Some (rc_uuid cb)
  /\ all_finished one_after_the_other a b w = true
  /\ hits (rc_ip ca) (final_world one_after_the_other a b w) = Some 2.
Proof.
  intros Hip Hnone a b. subst a b.
  unfold all_finished, final_world.
  rewrite (run_overlapping ca cb w Hip Hnone).
  rewrite (run_one_after_the_other ca cb w Hip Hnone).
  cbn [snd th_pc].
  set (ip := rc_ip ca) in *. change (rc_ip ca) with ip in Hip. rewrite Hip.
  set (w1 := create_session ip (rc_uuid ca) (rc_now ca) w).
  set (w2 := create_session ip (rc_uuid cb) (rc_now cb) (record ca w1)).
  assert (Hw1 : ODict.lookup ip (session_data w1)
                = Some (fresh_session (rc_uuid ca) (rc_now ca)))
    by apply lookup_create_session.
  assert (Hw2 : ODict.lookup ip (session_data w2)
                = Some (fresh_session (rc_uuid cb) (rc_now cb)))
    by apply lookup_create_session.
  assert (Hr1 : hits ip (record ca w1) = Some 1).
  { rewrite hits_record by reflexivity. unfold hits. now rewrite Hw1. }
  split; [reflexivity|]. split; [|split; [|split; [|split; [reflexivity|]]]].
  - rewrite (entries_record ip cb w2 Hip) by (rewrite Hw2; discriminate).
    unfold w2, create_session. cbn [session_data].
    rewrite entries_set_present.
    + rewrite (entries_record ip ca w1 eq_refl) by (rewrite Hw1; discriminate).
      unfold w1, create_session. cbn [session_data].
      now apply entries_set_absent.
    + unfold hits in Hr1. now destruct (ODict.lookup ip (session_data (record ca w1))).
  - rewrite (hits_record ip cb w2 Hip). unfold hits. now rewrite Hw2.
  - now rewrite (session_id_record ip cb w2 _ Hip Hw2).
  - rewrite (hits_record ip cb _ Hip), Hr1. reflexivity.
Qed.

Lemma C9_overlapping_first_contacts_count_one_witness :
  rc_ip (th_call (first_contact "bbbbbbbbbbbbbbbb"))
    = rc_ip (th_call (first_contact "aaaaaaaaaaaaaaaa"))
  /\ ODict.lookup "10.0.0.1" (session_data initial_world) = None
  /\ hits "10.0.0.1"
       (final_world overlapping (first_contact "aaaaaaaaaaaaaaaa")
          (first_contact "bbbbbbbbbbbbbbbb") initial_world)
     = Some 1.
Proof.
  assert (Hip : rc_ip (th_call (first_contact "bbbbbbbbbbbbbbbb"))
                = rc_ip (th_call (first_contact "aaaaaaaaaaaaaaaa")))
    by reflexivity.
  assert (Hnone : ODict.lookup
                    (rc_ip (th_call (first_contact "aaaaaaaaaaaaaaaa")))
                    (session_data initial_world) = None) by reflexivity.
  split; [exact Hip|]. split; [exact Hnone|].
  exact (proj1 (proj2 (proj2 (C9_overlapping_first_contacts_count_one
                                (th_call (first_contact "aaaaaaaaaaaaaaaa"))
                                (th_call (first_contact "bbbbbbbbbbbbbbbb"))
                                initial_world Hip Hnone)))).
Defined.

(** ** The four ways a handler ends, on the sample peer *)

Example served_request :
  snd (handle_client (peer (Some home_request) true) initial_world)
  = [EvDisk "server/static/index.html";
     EvSend (response_bytes 200 "0123456789abcdef" "<h1>Home</h1>");
     EvClose]
  /\ status_codes (metrics served_once) !! "200" = Some 1
  /\ cached "/index.html" served_once = Some "<h1>Home</h1>"
  /\ option_map device_type (ODict.lookup "10.0.0.1" (session_data served_once))
     = Some "mobile".
Proof. vm_compute. repeat split. Qed.

Example empty_read :
  handle_client (peer (Some "") true) served_once = (served_once, [EvClose]).
Proof. vm_compute. reflexivity. Qed.

Example failed_read :
  handle_client (peer None true) served_once = (served_once, [EvClose]).
Proof. vm_compute. reflexivity. Qed.

Example four_tokens_unanswered :
  handle_client (peer (Some long_request) true) served_once
  = (served_once, [EvClose]).
Proof. vm_compute. reflexivity. Qed.

Example failed_send_unrecorded :
  total_requests
    (metrics (fst (handle_client (peer (Some home_request) false) served_once)))
  = total_requests (metrics served_once)
  /\ cache_hits
       (metrics (fst (handle_client (peer (Some home_request) false) served_once)))
     = 1.
Proof. vm_compute. repeat split. Qed.

(** ** Further properties of the code *)

Lemma entries_set_ne {V} k k' (v : V) (d : list (string * V)) :
  k <> k' -> ODict.entries k' (ODict.set k v d) = ODict.entries k' d.
Proof.
  intros Hne. unfold ODict.entries.
  induction d as [|[k0 v0] d IH]; simpl.
  - destruct (String.eqb_spec k' k); [congruence|reflexivity].
  - destruct (String.eqb_spec k k0) as [->|]; simpl.
    + destruct (String.eqb_spec k' k0); [congruence|reflexivity].
    + destruct (String.eqb k' k0); simpl; now rewrite IH.
Qed.

Lemma entries_set_le_one {V} k k' (v : V) (d : list (string * V)) :
  (ODict.entries k' d <= 1)%nat -> (ODict.entries k' (ODict.set k v d) <= 1)%nat.
Proof.
  intros H. destruct (String.eqb_spec k k') as [->|Hne].
  - destruct (ODict.lookup k' d) eqn:E.
    + rewrite entries_set_present by congruence. assumption.
    + rewrite entries_set_absent by assumption. lia.
  - now rewrite entries_set_ne.
Qed.

Lemma entries_record_le_one k c w :
  (ODict.entries k (session_data w) <= 1)%nat ->
  (ODict.entries k (session_data (record c w)) <= 1)%nat.
Proof.
  intros H. simpl. unfold record_session.
  destruct (ODict.mem (rc_ip c) (session_data w));
    destruct (ODict.lookup (rc_ip c) _);
    repeat apply entries_set_le_one; assumption.
Qed.

Lemma entries_thread_step_le_one k t w :
  (ODict.entries k (session_data w) <= 1)%nat ->
  (ODict.entries k (session_data (snd (thread_step t w))) <= 1)%nat.
Proof.
  intros H. unfold thread_step. destruct (th_pc t); simpl.
  - now destruct (ODict.lookup _ _).
  - now apply entries_set_le_one.
  - now apply entries_record_le_one.
  - assumption.
Qed.

(** A request line of more than three tokens is not answered: the
    unpacking of the tokens raises, the handler sends nothing, records
    nothing and closes the socket. *)
Theorem long_request_line_unanswered (e : env) (w : world) (req : string) :
  env_recv e = Some req ->
  (3 < length (PyStr.split (request_line req)))%nat ->
  handle_client e w = (leave (enter w), [EvClose]).
Proof.
  intros Hrecv Hlen. rewrite handle_client_unfold. unfold handle_try.
  rewrite Hrecv. fold (request_line req).
  destruct (String.eqb_spec req "") as [->|_]; [vm_compute in Hlen; lia|].
  destruct (Nat.ltb_spec (length (PyStr.split (request_line req))) 3); [lia|].
  destruct (PyStr.split (request_line req)) as [|m [|path [|proto [|x l]]]];
    simpl in Hlen; try lia.
  reflexivity.
Qed.

Lemma long_request_line_unanswered_witness :
  env_recv (peer (Some long_request) true) = Some long_request
  /\ (3 < length (PyStr.split (request_line long_request)))%nat
  /\ handle_client (peer (Some long_request) true) initial_world
     = (leave (enter initial_world), [EvClose]).
Proof.
  assert (H1 : env_recv (peer (Some long_request) true) = Some long_request)
    by reflexivity.
  assert (H2 : (3 < length (PyStr.split (request_line long_request)))%nat)
    by (vm_compute; lia).
  split; [exact H1|]. split; [exact H2|].
  exact (long_request_line_unanswered (peer (Some long_request) true)
           initial_world long_request H1 H2).
Defined.

Lemma get_file_stores fs path body w :
  cache_enabled (metrics w) = true ->
  cached path w = None ->
  fs (static_location path) = FsFile body ->
  get_file fs path w
  = {| fa_body := body; fa_status := 200;
       fa_world :=
         {| metrics := add_cache_miss (metrics w);
            session_data := session_data w;
            file_cache := <[path := body]> (file_cache w) |};
       fa_events := [EvDisk (static_location path)] |}.
Proof.
  intros Hon Hmiss Hfile. unfold get_file. rewrite Hmiss, Hfile. simpl.
  now rewrite Hon.
Qed.

(** While the cache is enabled, a path that was resolved from the disk is
    served from the cache the next time: no look-up is made, whatever the
    disk holds by then, the body is the one that was stored, and the
    counter of hits goes up by one. *)
Theorem resolved_path_served_from_cache (fs fs' : string -> fs_result)
    (path body : string) (w : world) :
  cache_enabled (metrics w) = true ->
  cached path w = None ->
  fs (static_location path) = FsFile body ->
  let first := get_file fs path w in
  let second := get_file fs' path (fa_world first) in
  fa_events first = [EvDisk (static_location path)]
  /\ fa_events second = []
  /\ fa_body second = body
  /\ fa_status second = 200
  /\ cache_hits (metrics (fa_world second)) = cache_hits (metrics w) + 1
  /\ cache_misses (metrics (fa_world second)) = cache_misses (metrics w) + 1.
Proof.
  intros Hon Hmiss Hfile. cbv zeta.
  rewrite (get_file_stores fs path body w Hon Hmiss Hfile).
  unfold get_file, cached. simpl. rewrite Hon, lookup_insert_eq. simpl.
  repeat split.
Qed.

Lemma resolved_path_served_from_cache_witness :
  cache_enabled (metrics initial_world) = true
  /\ cached "/index.html" initial_world = None
  /\ site (static_location "/index.html") = FsFile "<h1>Home</h1>"
  /\ fa_body (get_file site_updated "/index.html"
                (fa_world (get_file site "/index.html" initial_world)))
     = "<h1>Home</h1>".
Proof.
  assert (H1 : cache_enabled (metrics initial_world) = true) by reflexivity.
  assert (H2 : cached "/index.html" initial_world = None) by reflexivity.
  assert (H3 : site (static_location "/index.html") = FsFile "<h1>Home</h1>")
    by reflexivity.
  split; [exact H1|]. split; [exact H2|]. split; [exact H3|].
  exact (proj1 (proj2 (proj2 (resolved_path_served_from_cache site site_updated
                                "/index.html" "<h1>Home</h1>" initial_world
                                H1 H2 H3)))).
Defined.

(** ** Sessions under [record] *)

Lemma record_session_other c d ip :
  ip <> rc_ip c ->
  ODict.lookup ip (record_session c d) = ODict.lookup ip d.
Proof.
  intros Hne. unfold record_session.
  assert (Hne' : rc_ip c <> ip) by congruence.
  destruct (ODict.mem (rc_ip c) d);
    destruct (ODict.lookup (rc_ip c) _);
    rewrite ?lookup_set_ne by assumption; reflexivity.
Qed.

Lemma record_session_existing c d s :
  ODict.lookup (rc_ip c) d = Some s ->
  ODict.lookup (rc_ip c) (record_session c d)
  = Some {| session_id := session_id s; first_seen := first_seen s;
            last_seen := rc_now c; hit_count := hit_count s + 1;
            last_path := Some (rc_path c); device_type := rc_device c |}.
Proof.
  intros Hs. unfold record_session, ODict.mem. rewrite Hs, Hs.
  apply lookup_set_eq.
Qed.

(** ** Two first contacts, under every schedule *)

Lemma entries_lookup_none {V} k (d : list (string * V)) :
  ODict.lookup k d = None -> ODict.entries k d = 0%nat.
Proof.
  unfold ODict.entries. induction d as [|[k' v'] d IH]; simpl; intros H.
  - reflexivity.
  - destruct (String.eqb k k'); [discriminate|auto].
Qed.

Lemma race_invariant_sym ip ua ub a b w :
  race_invariant ip ua ub a b w -> race_invariant ip ub ua b a w.
Proof.
  unfold race_invariant. destruct (ODict.lookup ip (session_data w)).
  - intros (He & Hid & Hh & Hr). repeat split; try tauto; try lia.
  - intros (He & Hr). split; [assumption|lia].
Qed.

Lemma thread_step_keeps_race_invariant ip ua ub a b w :
  rc_ip (th_call a) = ip -> rc_uuid (th_call a) = ua ->
  race_invariant ip ua ub a b w ->
  race_invariant ip ua ub (fst (thread_step a w)) b (snd (thread_step a w)).
Proof.
  intros Hip Hua. unfold race_invariant, thread_step, is_at.
  destruct a as [ca pa]. simpl in Hip, Hua. subst ip ua.
  destruct pa; cbn [th_pc th_call at_pc fst snd].
  - destruct (ODict.lookup (rc_ip ca) (session_data w)) as [s|] eqn:E;
      cbn [fst snd th_pc at_pc]; rewrite E.
    + intros (He & Hid & Hh & Hr).
      repeat split; try assumption; try tauto; destruct (th_pc b); lia.
    + intros (He & Hr). split; [assumption|]. destruct (th_pc b); lia.
  - rewrite lookup_create_session.
    destruct (ODict.lookup (rc_ip ca) (session_data w)) as [s|] eqn:E.
    + intros (He & Hid & Hh & Hr). cbn [session_data create_session].
      rewrite entries_set_present by congruence.
      repeat split; try assumption; simpl; try tauto; destruct (th_pc b); lia.
    + intros (He & Hr). cbn [session_data create_session].
      rewrite entries_set_absent by assumption.
      repeat split; simpl; try tauto; destruct (th_pc b); lia.
  - destruct (ODict.lookup (rc_ip ca) (session_data w)) as [s|] eqn:E.
    + intros (He & Hid & Hh & Hr).
      cbn [session_data record]. rewrite (record_session_existing ca _ s E).
      pose proof (entries_record (rc_ip ca) ca w eq_refl) as Hen.
      cbn [session_data record] in Hen. rewrite Hen by congruence.
      repeat split; try assumption; simpl; try tauto; destruct (th_pc b); lia.
    + intros (He & Hr). destruct (th_pc b); lia.
  - trivial.
Qed.

Lemma run_schedule_keeps_race_invariant ip ua ub sched : forall a b w,
  rc_ip (th_call a) = ip -> rc_uuid (th_call a) = ua ->
  rc_ip (th_call b) = ip -> rc_uuid (th_call b) = ub ->
  race_invariant ip ua ub a b w ->
  match run_schedule sched a b w with
  | (a', b', w') => race_invariant ip ua ub a' b' w'
  end.
Proof.
  induction sched as [|[|] sched IH]; intros a b w Ha Hua Hb Hub Hinv; simpl.
  - assumption.
  - pose proof (thread_step_keeps_race_invariant ip ub ua b a w Hb Hub
                  (race_invariant_sym _ _ _ _ _ _ Hinv)) as Hstep.
    apply race_invariant_sym in Hstep.
    assert (Hc : th_call (fst (thread_step b w)) = th_call b)
      by (unfold thread_step; destruct (th_pc b); try reflexivity;
          now destruct (ODict.lookup _ _)).
    destruct (thread_step b w) as [b' w']. simpl in Hstep, Hc.
    apply IH; try assumption; now rewrite Hc.
  - pose proof (thread_step_keeps_race_invariant ip ua ub a b w Ha Hua Hinv)
      as Hstep.
    assert (Hc : th_call (fst (thread_step a w)) = th_call a)
      by (unfold thread_step; destruct (th_pc a); try reflexivity;
          now destruct (ODict.lookup _ _)).
    destruct (thread_step a w) as [a' w']. simpl in Hstep, Hc.
    apply IH; try assumption; now rewrite Hc.
Qed.

Lemma returning_invariant_sym ip s0 n0 a b w :
  returning_invariant ip s0 n0 a b w -> returning_invariant ip s0 n0 b a w.
Proof.
  unfold returning_invariant. destruct (ODict.lookup ip (session_data w)).
  - intros (He & Hid & Hh & Hr). repeat split; try assumption; lia.
  - trivial.
Qed.

Lemma thread_step_keeps_returning_invariant ip s0 n0 a b w :
  rc_ip (th_call a) = ip ->
  returning_invariant ip s0 n0 a b w ->
  returning_invariant ip s0 n0 (fst (thread_step a w)) b (snd (thread_step a w)).
Proof.
  intros Hip. unfold returning_invariant, thread_step, is_at.
  destruct a as [ca pa]. simpl in Hip. subst ip.
  destruct (ODict.lookup (rc_ip ca) (session_data w)) as [s|] eqn:E;
    [|intros []].
  intros (He & Hid & Hh & Hr). cbn [th_pc th_call] in *.
  destruct pa; cbn [th_pc th_call at_pc fst snd].
  - rewrite E. cbn [fst snd th_pc at_pc]. rewrite E.
    repeat split; try assumption; destruct (th_pc b); lia.
  - destruct (th_pc b); lia.
  - cbn [session_data record]. rewrite (record_session_existing ca _ s E).
    pose proof (entries_record (rc_ip ca) ca w eq_refl) as Hen.
    cbn [session_data record] in Hen. rewrite Hen by congruence.
    repeat split; try assumption; simpl; destruct (th_pc b); lia.
  - rewrite E. repeat split; assumption.
Qed.

Lemma run_schedule_keeps_returning_invariant ip s0 n0 sched : forall a b w,
  rc_ip (th_call a) = ip -> rc_ip (th_call b) = ip ->
  returning_invariant ip s0 n0 a b w ->
  match run_schedule sched a b w with
  | (a', b', w') => returning_invariant ip s0 n0 a' b' w'
  end.
Proof.
  induction sched as [|[|] sched IH]; intros a b w Ha Hb Hinv; simpl.
  - assumption.
  - pose proof (thread_step_keeps_returning_invariant ip s0 n0 b a w Hb
                  (returning_invariant_sym _ _ _ _ _ _ Hinv)) as Hstep.
    apply returning_invariant_sym in Hstep.
    assert (Hc : th_call (fst (thread_step b w)) = th_call b)
      by (unfold thread_step; destruct (th_pc b); try reflexivity;
          now destruct (ODict.lookup _ _)).
    destruct (thread_step b w) as [b' w']. simpl in Hstep, Hc.
    apply IH; try assumption; now rewrite Hc.
  - pose proof (thread_step_keeps_returning_invariant ip s0 n0 a b w Ha Hinv)
      as Hstep.
    assert (Hc : th_call (fst (thread_step a w)) = th_call a)
      by (unfold thread_step; destruct (th_pc a); try reflexivity;
          now destruct (ODict.lookup _ _)).
    destruct (thread_step a w) as [a' w']. simpl in Hstep, Hc.
    apply IH; try assumption; now rewrite Hc.
Qed.

(** Two handlers of one address, under every schedule that lets both
    finish.  When the address had a session before, the test of
    [_ensure_session_for_ip] finds it in both handlers: the table keeps its
    number of entries for the address, the session keeps its identifier and
    [record] has counted both hits.  When it had none (two first contacts),
    the table ends with exactly one session for the address, holding the
    identifier drawn by one of the two handlers, and its hit count is 1 or
    2: the unlocked test and assignment can lose one of the two hits,
    never both. *)
Theorem two_handlers_of_one_address_under_every_schedule (sched : list bool)
    (a b : thread) (w : world) :
  th_pc a = AtCheck -> th_pc b = AtCheck ->
  rc_ip (th_call b) = rc_ip (th_call a) ->
  all_finished sched a b w = true ->
  let ip := rc_ip (th_call a) in
  let w' := final_world sched a b w in
  match ODict.lookup ip (session_data w) with
  | Some s0 =>
      ODict.entries ip (session_data w') = ODict.entries ip (session_data w)
      /\ hits ip w' = Some (hit_count s0 + 2)
      /\ option_map session_id (ODict.lookup ip (session_data w'))
         = Some (session_id s0)
  | None =>
      ODict.entries ip (session_data w') = 1%nat
      /\ (hits ip w' = Some 1 \/ hits ip w' = Some 2)
      /\ (option_map session_id (ODict.lookup ip (session_data w'))
          = Some (rc_uuid (th_call a))
          \/ option_map session_id (ODict.lookup ip (session_data w'))
             = Some (rc_uuid (th_call b)))
  end.
Proof.
  intros Hpa Hpb Hip Hfin ip w'. subst ip w'.
  destruct (ODict.lookup (rc_ip (th_call a)) (session_data w)) as [s0|] eqn:E.
  - assert (Hinv : returning_invariant (rc_ip (th_call a)) s0
                     (ODict.entries (rc_ip (th_call a)) (session_data w)) a b w).
    { unfold returning_invariant, is_at. rewrite E, Hpa, Hpb.
      repeat split; lia. }
    pose proof (run_schedule_keeps_returning_invariant _ _ _ sched a b w
                  eq_refl Hip Hinv) as Hend.
    unfold all_finished in Hfin. unfold final_world, hits.
    destruct (run_schedule sched a b w) as [[a' b'] w']. simpl.
    unfold returning_invariant, is_at in Hend.
    destruct (th_pc a'); try discriminate. destruct (th_pc b'); try discriminate.
    destruct (ODict.lookup (rc_ip (th_call a)) (session_data w')) as [s|];
      [|destruct Hend].
    destruct Hend as (He & Hid & Hh & _). simpl.
    split; [assumption|]. split; [f_equal; lia|now rewrite Hid].
  - assert (Hinv : race_invariant (rc_ip (th_call a)) (rc_uuid (th_call a))
                     (rc_uuid (th_call b)) a b w).
    { unfold race_invariant, is_at. rewrite E, Hpa, Hpb.
      split; [now apply entries_lookup_none|reflexivity]. }
    pose proof (run_schedule_keeps_race_invariant _ _ _ sched a b w
                  eq_refl eq_refl Hip eq_refl Hinv) as Hend.
    unfold all_finished in Hfin. unfold final_world, hits.
    destruct (run_schedule sched a b w) as [[a' b'] w']. simpl.
    unfold race_invariant, is_at in Hend.
    destruct (th_pc a'); try discriminate. destruct (th_pc b'); try discriminate.
    destruct (ODict.lookup (rc_ip (th_call a)) (session_data w')) as [s|].
    + destruct Hend as (He & Hid & Hh & Hr). simpl.
      split; [assumption|]. split.
      * assert (hit_count s = 1 \/ hit_count s = 2) as [->| ->] by lia; auto.
      * destruct Hid as [->| ->]; auto.
    + destruct Hend as (_ & Hr). lia.
Qed.

Lemma two_handlers_of_one_address_under_every_schedule_witness :
  all_finished overlapping (first_contact "aaaaaaaaaaaaaaaa")
    (first_contact "bbbbbbbbbbbbbbbb") initial_world = true
  /\ all_finished overlapping (first_contact "aaaaaaaaaaaaaaaa")
       (first_contact "bbbbbbbbbbbbbbbb") served_once = true
  /\ hits "10.0.0.1"
       (final_world overlapping (first_contact "aaaaaaaaaaaaaaaa")
          (first_contact "bbbbbbbbbbbbbbbb") initial_world) = Some 1
  /\ hits "10.0.0.1"
       (final_world overlapping (first_contact "aaaaaaaaaaaaaaaa")
          (first_contact "bbbbbbbbbbbbbbbb") served_once) = Some 3.
Proof.
  assert (H0 : all_finished overlapping (first_contact "aaaaaaaaaaaaaaaa")
                 (first_contact "bbbbbbbbbbbbbbbb") initial_world = true)
    by (vm_compute; reflexivity).
  assert (H1 : all_finished overlapping (first_contact "aaaaaaaaaaaaaaaa")
                 (first_contact "bbbbbbbbbbbbbbbb") served_once = true)
    by (vm_compute; reflexivity).
  split; [exact H0|]. split; [exact H1|]. split; [vm_compute; reflexivity|].
  exact (proj1 (proj2 (two_handlers_of_one_address_under_every_schedule
                         overlapping (first_contact "aaaaaaaaaaaaaaaa")
                         (first_contact "bbbbbbbbbbbbbbbb") served_once
                         eq_refl eq_refl eq_refl H1))).
Defined.

Lemma calls_from_cons ip c cs :
  calls_from ip (c :: cs)
  = (if String.eqb (rc_ip c) ip then 1 else 0) + calls_from ip cs.
Proof.
  unfold calls_from. simpl. destruct (String.eqb (rc_ip c) ip); simpl; lia.
Qed.

Lemma record_all_keeps_session (cs : list record_call) :
  forall (w : world) (ip : string) (s : session),
  ODict.lookup ip (session_data w) = Some s ->
  exists s',
    ODict.lookup ip (session_data (record_all cs w)) = Some s'
    /\ session_id s' = session_id s
    /\ first_seen s' = first_seen s
    /\ hit_count s' = hit_count s + calls_from ip cs.
Proof.
  induction cs as [|c cs IH]; intros w ip s Hs.
  - exists s. split; [exact Hs|]. split; [reflexivity|].
    split; [reflexivity|]. change (calls_from ip []) with 0. lia.
  - change (record_all (c :: cs) w) with (record_all cs (record c w)).
    rewrite calls_from_cons.
    destruct (String.eqb_spec (rc_ip c) ip) as [Heq|Hne].
    + subst ip.
      destruct (IH (record c w) (rc_ip c) _ (record_session_existing c _ s Hs))
        as (s' & Hs' & Hid & Hfirst & Hhits).
      exists s'. simpl in *. repeat split; try assumption. lia.
    + assert (Hs1 : ODict.lookup ip (session_data (record c w)) = Some s).
      { simpl. rewrite record_session_other by congruence. assumption. }
      destruct (IH (record c w) ip s Hs1) as (s' & Hs' & Hid & Hfirst & Hhits).
      exists s'. repeat split; assumption.
Qed.

(** Once an address has a session, no run of [record] calls changes its
    identifier or the time it was first seen, and its hit count grows by
    the number of calls of the run that come from the address. *)
Theorem session_identity_kept_hits_counted (cs : list record_call)
    (w : world) (ip : string) (s : session) :
  ODict.lookup ip (session_data w) = Some s ->
  exists s',
    ODict.lookup ip (session_data (record_all cs w)) = Some s'
    /\ session_id s' = session_id s
    /\ first_seen s' = first_seen s
    /\ hit_count s' = hit_count s + calls_from ip cs.
Proof. apply record_all_keeps_session. Qed.

Lemma session_identity_kept_hits_counted_witness :
  ODict.lookup "10.0.0.1" (session_data served_once)
  = Some {| session_id := "0123456789abcdef";
            first_seen := "2024-01-01 00:00:00";
            last_seen := "2024-01-01 00:00:00"; hit_count := 1;
            last_path := Some "/index.html"; device_type := "mobile" |}
  /\ exists s',
       ODict.lookup "10.0.0.1"
         (session_data
            (record_all [tenth_of_a_second; thirty_five_microseconds] served_once))
       = Some s'
       /\ session_id s' = "0123456789abcdef"
       /\ first_seen s' = "2024-01-01 00:00:00"
       /\ hit_count s'
          = 1 + calls_from "10.0.0.1" [tenth_of_a_second; thirty_five_microseconds].
Proof.
  assert (H : ODict.lookup "10.0.0.1" (session_data served_once)
              = Some {| session_id := "0123456789abcdef";
                        first_seen := "2024-01-01 00:00:00";
                        last_seen := "2024-01-01 00:00:00"; hit_count := 1;
                        last_path := Some "/index.html"; device_type := "mobile" |})
    by (vm_compute; reflexivity).
  split; [exact H|].
  exact (session_identity_kept_hits_counted
           [tenth_of_a_second; thirty_five_microseconds] served_once "10.0.0.1" _ H).
Defined.

(** ** Invariants of the states the server reaches *)

(** A property of the state that each building block of the handler keeps
    is kept by the handler. *)
Lemma handle_client_keeps (P : world -> Prop) (e : env) :
  (forall w, P w -> P (enter w)) ->
  (forall w, P w -> P (leave w)) ->
  (forall c w, P w -> P (record c w)) ->
  (forall path w, P w -> P (fa_world (get_file (env_fs e) path w))) ->
  (forall ip sid now w, P w -> P (snd (_ensure_session_for_ip ip sid now w))) ->
  forall w, P w -> P (fst (handle_client e w)).
Proof.
  intros Henter Hleave Hrecord Hfile Hsession w Hw.
  rewrite handle_client_unfold. cbn [fst]. apply Hleave.
  apply Henter in Hw. revert Hw. generalize (enter w). clear w. intros w Hw.
  unfold handle_try.
  destruct (env_recv e) as [req|]; [|exact Hw].
  destruct (String.eqb req ""); [exact Hw|].
  destruct (length _ <? 3)%nat; [now apply Hrecord|].
  destruct (PyStr.split _) as [|m [|path [|proto [|]]]]; try exact Hw.
  set (p := if String.eqb path "/" then "/index.html" else path).
  pose proof (Hsession (env_ip e) (env_uuid e) (env_now e) _
                (Hfile p w Hw)) as Hs.
  destruct (_ensure_session_for_ip _ _ _ _) as [sid w2]. cbn [snd] in Hs.
  destruct (env_send_ok e); cbn [fst]; [now apply Hrecord|exact Hs].
Qed.

Lemma reachable_keeps (ok : env -> Prop) (P : world -> Prop) :
  P initial_world ->
  (forall e w, ok e -> P w -> P (fst (handle_client e w))) ->
  (forall w, P w -> P (snd (toggle_cache w))) ->
  forall w, reachable ok w -> P w.
Proof.
  intros Hinit Hhandle Htoggle w Hreach.
  induction Hreach; auto.
Qed.

Lemma histogram_total_insert k v (d : gmap string Z) :
  histogram_total (<[k := v]> d) = v + histogram_total d - default 0 (d !! k).
Proof.
  unfold histogram_total.
  assert (Hcomm : forall (m : gmap string Z) (j1 j2 : string) (z1 z2 y : Z),
            j1 <> j2 -> m !! j1 = Some z1 -> m !! j2 = Some z2 ->
            z1 + (z2 + y) = z2 + (z1 + y)) by (intros; lia).
  destruct (d !! k) as [old|] eqn:E; simpl.
  - rewrite <- insert_delete_eq.
    rewrite map_fold_insert_L; [|apply Hcomm|apply lookup_delete_eq].
    rewrite (map_fold_delete_L _ _ k old d); [lia|apply Hcomm|assumption].
  - rewrite map_fold_insert_L; [lia|apply Hcomm|assumption].
Qed.

Lemma histogram_total_bump k (d : gmap string Z) :
  histogram_total (bump k d) = histogram_total d + 1.
Proof.
  unfold bump. destruct (d !! k) as [n|] eqn:E.
  - rewrite histogram_total_insert, E. simpl. lia.
  - rewrite !histogram_total_insert, lookup_insert_eq, E. simpl. lia.
Qed.

Lemma hit_total_set k v (d : list (string * session)) :
  hit_total (ODict.set k v d)
  = hit_total d + hit_count v
    - match ODict.lookup k d with Some s => hit_count s | None => 0 end.
Proof.
  induction d as [|[k' v'] d IH]; simpl.
  - lia.
  - destruct (String.eqb k k'); simpl; lia.
Qed.

Lemma hit_total_record c (d : list (string * session)) :
  hit_total (record_session c d) = hit_total d + 1.
Proof.
  unfold record_session, ODict.mem.
  destruct (ODict.lookup (rc_ip c) d) as [s|] eqn:E.
  - rewrite E, hit_total_set, E. simpl. lia.
  - rewrite lookup_set_eq, !hit_total_set, lookup_set_eq, E. simpl. lia.
Qed.

Lemma hit_total_ensure ip sid now w :
  hit_total (session_data (snd (_ensure_session_for_ip ip sid now w)))
  = hit_total (session_data w).
Proof.
  unfold _ensure_session_for_ip.
  destruct (ODict.lookup ip (session_data w)) eqn:E; simpl; [reflexivity|].
  rewrite hit_total_set, E. simpl. lia.
Qed.

Lemma get_file_keeps_counts fs path w :
  total_requests (metrics (fa_world (get_file fs path w))) = total_requests (metrics w)
  /\ status_codes (metrics (fa_world (get_file fs path w))) = status_codes (metrics w)
  /\ geo (metrics (fa_world (get_file fs path w))) = geo (metrics w)
  /\ session_data (fa_world (get_file fs path w)) = session_data w
  /\ response_times (metrics (fa_world (get_file fs path w))) = response_times (metrics w)
  /\ latency_trend (metrics (fa_world (get_file fs path w))) = latency_trend (metrics w)
  /\ recent_requests (metrics (fa_world (get_file fs path w))) = recent_requests (metrics w)
  /\ unique_sessions (metrics (fa_world (get_file fs path w))) = unique_sessions (metrics w)
  /\ cache_enabled (metrics (fa_world (get_file fs path w))) = cache_enabled (metrics w).
Proof.
  unfold get_file. destruct (cached path w); [now repeat split|].
  destruct (fs (static_location path)); try now repeat split.
  cbn [fa_world set_metrics metrics add_cache_miss cache_enabled].
  destruct (cache_enabled (metrics w)) eqn:E; cbn; rewrite ?E; now repeat split.
Qed.

Lemma ensure_keeps_counts ip sid now w :
  total_requests (metrics (snd (_ensure_session_for_ip ip sid now w)))
  = total_requests (metrics w)
  /\ status_codes (metrics (snd (_ensure_session_for_ip ip sid now w)))
     = status_codes (metrics w)
  /\ geo (metrics (snd (_ensure_session_for_ip ip sid now w))) = geo (metrics w)
  /\ response_times (metrics (snd (_ensure_session_for_ip ip sid now w)))
     = response_times (metrics w)
  /\ latency_trend (metrics (snd (_ensure_session_for_ip ip sid now w)))
     = latency_trend (metrics w)
  /\ recent_requests (metrics (snd (_ensure_session_for_ip ip sid now w)))
     = recent_requests (metrics w)
  /\ cache_enabled (metrics (snd (_ensure_session_for_ip ip sid now w)))
     = cache_enabled (metrics w)
  /\ file_cache (snd (_ensure_session_for_ip ip sid now w)) = file_cache w.
Proof.
  unfold _ensure_session_for_ip.
  destruct (ODict.lookup ip (session_data w)); now repeat split.
Qed.

(** In every state the server reaches with its handlers run one at a time,
    the counters of the status codes add up to the number of requests
    recorded, and so do the counters of the countries and the hit counts of
    the sessions. *)
Theorem counters_add_up_to_total_requests (w : world) :
  reachable any_env w ->
  histogram_total (status_codes (metrics w)) = total_requests (metrics w)
  /\ histogram_total (geo (metrics w)) = total_requests (metrics w)
  /\ hit_total (session_data w) = total_requests (metrics w).
Proof.
  pose (P := fun w =>
          histogram_total (status_codes (metrics w)) = total_requests (metrics w)
          /\ histogram_total (geo (metrics w)) = total_requests (metrics w)
          /\ hit_total (session_data w) = total_requests (metrics w)).
  apply (reachable_keeps any_env P); unfold P.
  - vm_compute. repeat split.
  - intros e w0 _. apply (handle_client_keeps P e); unfold P; clear.
    + intros w H. exact H.
    + intros w H. exact H.
    + intros c w (H1 & H2 & H3).
      cbn [record metrics session_data record_metrics status_codes geo
           total_requests].
      rewrite !histogram_total_bump, hit_total_record. lia.
    + intros path w H.
      destruct (get_file_keeps_counts (env_fs e) path w) as (-> & -> & -> & -> & _).
      exact H.
    + intros ip sid now w H.
      destruct (ensure_keeps_counts ip sid now w) as (-> & -> & -> & _).
      now rewrite hit_total_ensure.
  - intros w0 H. exact H.
Qed.

Lemma reachable_served_once : reachable any_env served_once.
Proof. exact (reach_handle any_env _ _ I (reach_initial any_env)). Qed.

Lemma counters_add_up_to_total_requests_witness :
  reachable any_env served_once
  /\ histogram_total (status_codes (metrics served_once))
     = total_requests (metrics served_once).
Proof.
  split; [exact reachable_served_once|].
  exact (proj1 (counters_add_up_to_total_requests served_once reachable_served_once)).
Defined.

Lemma length_last_n_snoc {A} n (l : list A) x :
  length (last_n n (l ++ [x])) = Nat.min (length l + 1) n.
Proof. unfold last_n. rewrite length_drop, length_app. simpl. lia. Qed.

Lemma last_n_last_n {A} m n (l : list A) :
  (m <= n)%nat -> last_n m (last_n n l) = last_n m l.
Proof.
  intros Hmn. unfold last_n. rewrite length_drop, drop_drop. f_equal. lia.
Qed.

Lemma last_n_map {A B} (f : A -> B) n (l : list A) :
  last_n n (map f l) = map f (last_n n l).
Proof. unfold last_n. now rewrite length_map, skipn_map. Qed.

Lemma take_rev_last_n {A} n (l : list A) : take n (rev l) = rev (last_n n l).
Proof. unfold last_n. apply firstn_rev. Qed.

Lemma windows_agree_record c w : windows_agree w -> windows_agree (record c w).
Proof.
  unfold windows_agree. cbv zeta.
  intros (Htot & Hrt & Hlat & Hrec & Hms & Hlog).
  cbn [record metrics record_metrics total_requests response_times
       latency_trend recent_requests].
  split; [lia|]. split.
  { rewrite length_last_n_snoc. unfold MAX_TIMES. lia. }
  split.
  { rewrite length_last_n_snoc. unfold MAX_LAT. lia. }
  split.
  { rewrite length_take. simpl length. unfold MAX_RECENT. lia. }
  split.
  - rewrite Hms.
    change [(rc_rt c * PyFloat.of_int 1000)%float]
      with (map (fun t => (t * 1000)%float) [rc_rt c]).
    rewrite <- map_app, last_n_map. f_equal.
    change MAX_LAT with 120%nat.
    rewrite last_n_app_last_n, last_n_last_n; [reflexivity|unfold MAX_TIMES; lia].
  - rewrite <- firstn_map. cbn [map new_entry re_response_time]. rewrite Hlog.
    change MAX_RECENT with 100%nat.
    rewrite last_n_last_n by (unfold MAX_TIMES; lia).
    rewrite <- (last_n_app_last_n 100 (response_times (metrics w)) [rc_rt c]).
    rewrite <- (take_rev_last_n 100
                  (last_n 100 (response_times (metrics w)) ++ [rc_rt c])).
    rewrite rev_app_distr, <- firstn_map. reflexivity.
Qed.

Lemma windows_agree_same w w' :
  total_requests (metrics w') = total_requests (metrics w) ->
  response_times (metrics w') = response_times (metrics w) ->
  latency_trend (metrics w') = latency_trend (metrics w) ->
  recent_requests (metrics w') = recent_requests (metrics w) ->
  windows_agree w -> windows_agree w'.
Proof. unfold windows_agree. cbv zeta. now intros -> -> -> ->. Qed.

(** In every state the server reaches with its handlers run one at a time,
    the window of response times holds min(total requests, 2000) samples,
    the latency trend min(total, 120) and the log of recent requests
    min(total, 100); the latency trend is the last 120 response times
    multiplied by 1000, and the response times of the log are the last 100
    response times rounded to four decimals, newest first. *)
Theorem windows_hold_the_newest_samples (w : world) :
  reachable any_env w -> windows_agree w.
Proof.
  apply (reachable_keeps any_env windows_agree).
  - unfold windows_agree. vm_compute. repeat split; discriminate.
  - intros e w0 _. apply (handle_client_keeps windows_agree e); clear.
    + intros w. now apply windows_agree_same.
    + intros w. now apply windows_agree_same.
    + intros c w. apply windows_agree_record.
    + intros path w.
      destruct (get_file_keeps_counts (env_fs e) path w)
        as (Ht & _ & _ & _ & Hr & Hl & Hq & _).
      now apply windows_agree_same.
    + intros ip sid now w.
      destruct (ensure_keeps_counts ip sid now w)
        as (Ht & _ & _ & Hr & Hl & Hq & _).
      now apply windows_agree_same.
  - intros w0. now apply windows_agree_same.
Qed.

Lemma windows_hold_the_newest_samples_witness :
  reachable any_env served_once /\ windows_agree served_once.
Proof.
  split; [exact reachable_served_once|].
  exact (windows_hold_the_newest_samples served_once reachable_served_once).
Defined.

Lemma handler_restores_active_clients e w :
  0 <= active_clients (metrics w) ->
  active_clients (metrics (fst (handle_client e w))) = active_clients (metrics w).
Proof.
  intros Hpos. rewrite handle_client_unfold. simpl.
  rewrite active_clients_handle_try. simpl. lia.
Qed.

Lemma get_file_cache fs path w :
  file_cache (fa_world (get_file fs path w))
  = match cached path w, fs (static_location path) with
    | None, FsFile body =>
        if cache_enabled (metrics w) then <[path := body]> (file_cache w)
        else file_cache w
    | _, _ => file_cache w
    end.
Proof.
  unfold get_file. destruct (cached path w); [reflexivity|].
  destruct (fs (static_location path)); try reflexivity.
  cbn [fa_world set_metrics metrics add_cache_miss cache_enabled].
  now destruct (cache_enabled (metrics w)).
Qed.

Lemma get_file_keeps_active fs path w :
  active_clients (metrics (fa_world (get_file fs path w)))
  = active_clients (metrics w).
Proof. apply active_clients_get_file. Qed.

(** In every state the server reaches with its handlers run one at a time,
    no client is counted as active, and while the cache is disabled it
    holds no entry. *)
Theorem idle_and_no_entries_while_disabled (w : world) :
  reachable any_env w ->
  active_clients (metrics w) = 0
  /\ (cache_enabled (metrics w) = false -> file_cache w = ∅).
Proof.
  intros Hreach. split.
  - induction Hreach as [|e w _ _ IH|w _ IH]; [reflexivity| |exact IH].
    rewrite handler_restores_active_clients; [exact IH|lia].
  - revert w Hreach.
    pose (P := fun w => cache_enabled (metrics w) = false -> file_cache w = ∅).
    apply (reachable_keeps any_env P); unfold P.
    + discriminate.
    + intros e w0 _. apply (handle_client_keeps P e); unfold P; clear.
      * intros w H. exact H.
      * intros w H. exact H.
      * intros c w H. exact H.
      * intros path w H.
        destruct (get_file_keeps_counts (env_fs e) path w)
          as (_ & _ & _ & _ & _ & _ & _ & _ & ->).
        rewrite get_file_cache. intros Hoff.
        destruct (cached path w), (env_fs e (static_location path));
          rewrite ?Hoff; auto.
      * intros ip sid now w H.
        destruct (ensure_keeps_counts ip sid now w)
          as (_ & _ & _ & _ & _ & _ & -> & ->).
        exact H.
    + intros w0 _. unfold toggle_cache. simpl.
      destruct (cache_enabled (metrics w0)); [reflexivity|discriminate].
Qed.

Lemma idle_and_no_entries_while_disabled_witness :
  reachable any_env (snd (toggle_cache served_once))
  /\ cache_enabled (metrics (snd (toggle_cache served_once))) = false
  /\ file_cache (snd (toggle_cache served_once)) = ∅.
Proof.
  assert (H : reachable any_env (snd (toggle_cache served_once)))
    by exact (reach_toggle any_env _ reachable_served_once).
  assert (Hoff : cache_enabled (metrics (snd (toggle_cache served_once))) = false)
    by reflexivity.
  split; [exact H|]. split; [exact Hoff|].
  exact (proj2 (idle_and_no_entries_while_disabled _ H) Hoff).
Defined.

Lemma cache_agrees_get_file fs fs' path w :
  (forall loc, fs' loc = fs loc) ->
  cache_agrees fs w -> cache_agrees fs (fa_world (get_file fs' path w)).
Proof.
  intros Hfs Hagree p body. rewrite get_file_cache.
  destruct (cached path w); [apply Hagree|].
  destruct (fs' (static_location path)) as [| |b] eqn:E; try apply Hagree.
  destruct (cache_enabled (metrics w)); [|apply Hagree].
  destruct (String.eqb_spec path p) as [->|Hne].
  - rewrite lookup_insert_eq. intros [= <-]. now rewrite <- Hfs.
  - rewrite lookup_insert_ne by assumption. apply Hagree.
Qed.

Lemma reachable_cache_agrees fs :
  forall w, reachable (on_disk fs) w -> cache_agrees fs w.
Proof.
  apply (reachable_keeps (on_disk fs) (cache_agrees fs)).
  - intros path body. cbn [file_cache initial_world]. rewrite lookup_empty.
    discriminate.
  - intros e w0 Hdisk. apply (handle_client_keeps (cache_agrees fs) e).
    + intros w H. exact H.
    + intros w H. exact H.
    + intros c w H. exact H.
    + intros path w. now apply cache_agrees_get_file.
    + intros ip sid now w H p body.
      destruct (ensure_keeps_counts ip sid now w)
        as (_ & _ & _ & _ & _ & _ & _ & ->).
      apply H.
  - intros w0 H path body. unfold toggle_cache. simpl.
    destruct (cache_enabled (metrics w0)); simpl.
    + rewrite lookup_empty. discriminate.
    + apply H.
Qed.

(** While the files on disk do not change, the cache is not observable in
    the answers: in every state reached by handlers that saw the disk
    [fs], run one at a time, [get_file] answers any path with the body and
    the status that the disk alone determines, whether it serves it from
    the cache or not. *)
Theorem cache_never_changes_the_answer (fs : string -> fs_result)
    (w : world) (path : string) :
  reachable (on_disk fs) w ->
  (fa_body (get_file fs path w), fa_status (get_file fs path w))
  = disk_answer (fs (static_location path)).
Proof.
  intros Hreach. pose proof (reachable_cache_agrees fs w Hreach) as Hagree.
  unfold get_file. destruct (cached path w) as [body|] eqn:Hc.
  - unfold cached in Hc. destruct (cache_enabled (metrics w)); [|discriminate].
    now rewrite (Hagree path body Hc).
  - now destruct (fs (static_location path)).
Qed.

Lemma cache_never_changes_the_answer_witness :
  reachable (on_disk site) served_once
  /\ cached "/index.html" served_once = Some "<h1>Home</h1>"
  /\ (fa_body (get_file site "/index.html" served_once),
      fa_status (get_file site "/index.html" served_once))
     = disk_answer (site (static_location "/index.html")).
Proof.
  assert (H : reachable (on_disk site) served_once).
  { apply (reach_handle (on_disk site)); [|apply reach_initial].
    intros loc. reflexivity. }
  split; [exact H|]. split; [vm_compute; reflexivity|].
  exact (cache_never_changes_the_answer site served_once "/index.html" H).
Defined.

(** Two toggles of the cache restore the flag and leave the metrics and
    the sessions as they were, and the cache empty, whatever it held and
    whether it was enabled or not. *)
Theorem two_toggles_restore_flag_and_empty_cache (w : world) :
  let w2 := snd (toggle_cache (snd (toggle_cache w))) in
  fst (toggle_cache (snd (toggle_cache w))) = cache_enabled (metrics w)
  /\ metrics w2 = metrics w
  /\ session_data w2 = session_data w
  /\ file_cache w2 = ∅.
Proof.
  cbv zeta. unfold toggle_cache. destruct w as [m d c]. destruct m. simpl.
  destruct cache_enabled0; simpl; repeat split.
Qed.

(** ** The session table *)

Lemma mem_keys {V} k (d : list (string * V)) :
  ODict.mem k d = true <-> In k (ODict.keys d).
Proof.
  unfold ODict.mem, ODict.keys. induction d as [|[k' v] d IH]; simpl.
  - split; [discriminate|tauto].
  - destruct (String.eqb_spec k k') as [->|Hne].
    + split; auto.
    + rewrite IH. split; [auto|intros [->|H]; [congruence|assumption]].
Qed.

Lemma keys_set {V} k (v : V) (d : list (string * V)) :
  ODict.keys (ODict.set k v d)
  = if ODict.mem k d then ODict.keys d else ODict.keys d ++ [k].
Proof.
  unfold ODict.mem, ODict.keys. induction d as [|[k' v'] d IH]; simpl.
  - reflexivity.
  - destruct (String.eqb_spec k k') as [->|Hne]; simpl; [reflexivity|].
    rewrite IH. now destruct (ODict.lookup k d).
Qed.

Lemma mem_set {V} k (v : V) (d : list (string * V)) :
  ODict.mem k (ODict.set k v d) = true.
Proof. unfold ODict.mem. now rewrite lookup_set_eq. Qed.

Lemma keys_record c d :
  ODict.keys (record_session c d)
  = if ODict.mem (rc_ip c) d then ODict.keys d else ODict.keys d ++ [rc_ip c].
Proof.
  unfold record_session.
  destruct (ODict.mem (rc_ip c) d) eqn:Hmem.
  - pose proof Hmem as Hlook. unfold ODict.mem in Hlook.
    destruct (ODict.lookup (rc_ip c) d); [|discriminate].
    now rewrite keys_set, Hmem.
  - rewrite lookup_set_eq, keys_set, mem_set, keys_set, Hmem. reflexivity.
Qed.

Lemma NoDup_snoc {A} (l : list A) (x : A) :
  List.NoDup l -> ~ In x l -> List.NoDup (l ++ [x]).
Proof.
  induction 1 as [|y l Hy Hl IH]; simpl; intros Hx.
  - constructor; [tauto|constructor].
  - constructor.
    + rewrite in_app_iff. simpl. intros [H|[H|[]]]; [tauto|]. subst. tauto.
    + apply IH. tauto.
Qed.

Lemma NoDup_keys_set {V} k (v : V) (d : list (string * V)) :
  List.NoDup (ODict.keys d) -> List.NoDup (ODict.keys (ODict.set k v d)).
Proof.
  intros H. rewrite keys_set. destruct (ODict.mem k d) eqn:E; [assumption|].
  apply NoDup_snoc; [assumption|].
  rewrite <- mem_keys, E. discriminate.
Qed.

Lemma length_set {V} k (v : V) (d : list (string * V)) :
  length (ODict.set k v d)
  = if ODict.mem k d then length d else S (length d).
Proof.
  rewrite <- (length_map fst (ODict.set k v d)).
  change (map fst (ODict.set k v d)) with (ODict.keys (ODict.set k v d)).
  rewrite keys_set. destruct (ODict.mem k d).
  - unfold ODict.keys. apply length_map.
  - unfold ODict.keys. rewrite length_app, length_map. simpl. lia.
Qed.

Lemma length_record_session c d :
  (length d <= length (record_session c d))%nat.
Proof.
  rewrite <- (length_map fst (record_session c d)).
  change (map fst (record_session c d)) with (ODict.keys (record_session c d)).
  rewrite keys_record. unfold ODict.keys.
  destruct (ODict.mem (rc_ip c) d); rewrite ?length_app, length_map; lia.
Qed.

(** In every state the server reaches with its handlers run one at a time,
    no address has two sessions, and the metric [unique_sessions] is at
    most the number of sessions ([record] creates a session without
    updating it); the snapshot reports the number of sessions itself. *)
Theorem sessions_distinct_and_metric_not_above (w : world) :
  reachable any_env w ->
  List.NoDup (ODict.keys (session_data w))
  /\ 0 <= unique_sessions (metrics w) <= Z.of_nat (length (session_data w))
  /\ option_map snap_unique_sessions (_get_metrics_copy w)
     = Some (Z.of_nat (length (session_data w))).
Proof.
  intros Hreach. split; [|split].
  - revert w Hreach.
    pose (P := fun w => List.NoDup (ODict.keys (session_data w))).
    apply (reachable_keeps any_env P); unfold P.
    + constructor.
    + intros e w0 _. apply (handle_client_keeps P e); unfold P; clear.
      * intros w H. exact H.
      * intros w H. exact H.
      * intros c w H. cbn [record session_data]. rewrite keys_record.
        destruct (ODict.mem (rc_ip c) (session_data w)) eqn:E; [assumption|].
        apply NoDup_snoc; [assumption|]. rewrite <- mem_keys, E. discriminate.
      * intros path w H.
        now destruct (get_file_keeps_counts (env_fs e) path w)
          as (_ & _ & _ & -> & _).
      * intros ip sid now w H. unfold _ensure_session_for_ip.
        destruct (ODict.lookup ip (session_data w)); [exact H|].
        cbn [snd create_session session_data]. now apply NoDup_keys_set.
    + intros w0 H. exact H.
  - revert w Hreach.
    pose (P := fun w =>
            0 <= unique_sessions (metrics w) <= Z.of_nat (length (session_data w))).
    apply (reachable_keeps any_env P); unfold P.
    + simpl. lia.
    + intros e w0 _. apply (handle_client_keeps P e); unfold P; clear.
      * intros w H. exact H.
      * intros w H. exact H.
      * intros c w H. cbn [record session_data metrics record_metrics unique_sessions].
        pose proof (length_record_session c (session_data w)). lia.
      * intros path w H.
        now destruct (get_file_keeps_counts (env_fs e) path w)
          as (_ & _ & _ & -> & _ & _ & _ & -> & _).
      * intros ip sid now w H. unfold _ensure_session_for_ip.
        destruct (ODict.lookup ip (session_data w)); [exact H|].
        cbn [snd create_session session_data metrics set_unique_sessions
             unique_sessions]. lia.
    + intros w0 H. exact H.
  - destruct (get_metrics_copy_total w) as [snap Hsnap]. rewrite Hsnap.
    unfold _get_metrics_copy in Hsnap. cbv zeta in Hsnap.
    destruct (_calc_percentiles (response_times (metrics w)) 95); [|discriminate].
    destruct (_calc_percentiles (response_times (metrics w)) 99); [|discriminate].
    now injection Hsnap as <-.
Qed.

Lemma sessions_distinct_and_metric_not_above_witness :
  reachable any_env (fst (handle_client (peer (Some short_request) true) initial_world))
  /\ unique_sessions
       (metrics (fst (handle_client (peer (Some short_request) true) initial_world)))
     = 0
  /\ length (session_data
               (fst (handle_client (peer (Some short_request) true) initial_world)))
     = 1%nat
  /\ List.NoDup
       (ODict.keys
          (session_data
             (fst (handle_client (peer (Some short_request) true) initial_world)))).
Proof.
  assert (H : reachable any_env
                (fst (handle_client (peer (Some short_request) true) initial_world)))
    by exact (reach_handle any_env _ _ I (reach_initial any_env)).
  split; [exact H|]. split; [reflexivity|]. split; [reflexivity|].
  exact (proj1 (sessions_distinct_and_metric_not_above _ H)).
Defined.

(** [record] touches the session of its caller and nothing else of the
    session table or of the cache: the sessions of the other addresses are
    as before, the addresses keep their order, a new address going last;
    the cache, its flag and its counters, the counter of active clients and
    the metric [unique_sessions] are as before; the number of requests
    recorded is one more. *)
Theorem record_touches_only_the_callers_session (c : record_call) (w : world) :
  (forall ip, ip <> rc_ip c ->
     ODict.lookup ip (session_data (record c w)) = ODict.lookup ip (session_data w))
  /\ ODict.keys (session_data (record c w))
     = (if ODict.mem (rc_ip c) (session_data w) then ODict.keys (session_data w)
        else ODict.keys (session_data w) ++ [rc_ip c])
  /\ file_cache (record c w) = file_cache w
  /\ cache_enabled (metrics (record c w)) = cache_enabled (metrics w)
  /\ cache_hits (metrics (record c w)) = cache_hits (metrics w)
  /\ cache_misses (metrics (record c w)) = cache_misses (metrics w)
  /\ active_clients (metrics (record c w)) = active_clients (metrics w)
  /\ unique_sessions (metrics (record c w)) = unique_sessions (metrics w)
  /\ total_requests (metrics (record c w)) = total_requests (metrics w) + 1.
Proof.
  split; [intros ip Hne; now apply record_session_other|].
  split; [apply keys_record|]. now repeat split.
Qed.

Lemma ensure_session_stored ip sid now w :
  exists s,
    ODict.lookup ip (session_data (snd (_ensure_session_for_ip ip sid now w)))
    = Some s
    /\ session_id s = fst (_ensure_session_for_ip ip sid now w).
Proof.
  unfold _ensure_session_for_ip.
  destruct (ODict.lookup ip (session_data w)) as [s|] eqn:E; simpl.
  - exists s. now split.
  - rewrite lookup_set_eq. eexists. split; [reflexivity|reflexivity].
Qed.

(** The identifier of a session is stable: once
    [_ensure_session_for_ip] has answered for an address, then after any
    run of [record] calls it answers the same identifier for that address,
    whatever fresh identifier it has at hand, and changes nothing. *)
Theorem ensured_session_id_is_stable (ip sid1 now1 sid2 now2 : string)
    (cs : list record_call) (w : world) :
  let first := _ensure_session_for_ip ip sid1 now1 w in
  let later := record_all cs (snd first) in
  _ensure_session_for_ip ip sid2 now2 later = (fst first, later).
Proof.
  cbv zeta.
  destruct (ensure_session_stored ip sid1 now1 w) as (s & Hs & Hid).
  destruct (record_all_keeps_session cs _ ip s Hs) as (s' & Hs' & Hid' & _).
  unfold _ensure_session_for_ip at 1. rewrite Hs'. now rewrite Hid', Hid.
Qed.

(** ** What a handler does to the outside and to the counters *)

Lemma get_file_events fs path w :
  fa_events (get_file fs path w) = []
  \/ fa_events (get_file fs path w) = [EvDisk (static_location path)].
Proof.
  unfold get_file. destruct (cached path w); [now left|].
  destruct (fs (static_location path)); now right.
Qed.

Lemma handle_try_three_tokens e w req m p v :
  env_recv e = Some req ->
  PyStr.split (request_line req) = [m; p; v] ->
  handle_try e w
  = (let a := get_file (env_fs e) (served_path p) w in
     let sw := _ensure_session_for_ip (env_ip e) (env_uuid e) (env_now e)
                 (fa_world a) in
     let sent := fa_events a
                 ++ [EvSend (response_bytes (fa_status a) (fst sw) (fa_body a))] in
     if env_send_ok e
     then (record (call_of e (served_path p) (fa_status a)
                     (detect_device (default "" (headers_of req !! "User-Agent"))))
             (snd sw), sent)
     else (snd sw, sent)).
Proof.
  intros Hrecv Hsplit. unfold handle_try. rewrite Hrecv.
  destruct (String.eqb_spec req "") as [->|_]; [discriminate Hsplit|].
  fold (request_line req). rewrite Hsplit. cbn [length Nat.ltb Nat.leb].
  fold (served_path p). fold (headers_of req). cbv zeta.
  destruct (_ensure_session_for_ip _ _ _ _) as [sid w2]. reflexivity.
Qed.

Lemma handle_try_cases e w :
  handle_try e w = (w, [])
  \/ handle_try e w
     = (record (call_of e "/" 400 "unknown") w, [EvSend BAD_REQUEST_RESPONSE])
  \/ exists req m p v,
       env_recv e = Some req /\ PyStr.split (request_line req) = [m; p; v].
Proof.
  unfold handle_try.
  destruct (env_recv e) as [req|] eqn:Hrecv; [|left; reflexivity].
  destruct (String.eqb req ""); [left; reflexivity|].
  fold (request_line req).
  destruct (length _ <? 3)%nat; [right; left; reflexivity|].
  destruct (PyStr.split (request_line req)) as [|m [|p [|v [|]]]] eqn:Hsplit;
    try (left; reflexivity).
  right. right. exists req, m, p, v. split; first [assumption|reflexivity].
Qed.

(** Every handler closes the socket exactly once, as its last act, and
    sends at most one response; it records at most one request, and
    records one only when it has sent a response. *)
Theorem handler_sends_at_most_once_and_closes_last (e : env) (w : world) :
  let evs := snd (handle_client e w) in
  let w' := fst (handle_client e w) in
  closes evs = 1%nat
  /\ last evs = Some EvClose
  /\ (sends evs <= 1)%nat
  /\ (total_requests (metrics w') = total_requests (metrics w)
      \/ total_requests (metrics w') = total_requests (metrics w) + 1
         /\ sends evs = 1%nat).
Proof.
  cbv zeta. rewrite handle_client_unfold. cbn [fst snd].
  destruct (handle_try_cases e (enter w))
    as [-> | [-> | (req & m & p & v & Hrecv & Hsplit)]].
  - cbn. repeat split; auto.
  - cbn. repeat split; auto.
  - rewrite (handle_try_three_tokens e (enter w) req m p v Hrecv Hsplit).
    cbv zeta.
    destruct (get_file_keeps_counts (env_fs e) (served_path p) (enter w))
      as (Ht & _).
    destruct (ensure_keeps_counts (env_ip e) (env_uuid e) (env_now e)
                (fa_world (get_file (env_fs e) (served_path p) (enter w))))
      as (Ht2 & _).
    destruct (get_file_events (env_fs e) (served_path p) (enter w)) as [-> | ->];
      destruct (env_send_ok e); cbn; rewrite ?Ht2, ?Ht; cbn;
      repeat split; auto.
Qed.

Lemma ensure_keeps_existing_id ip sid now w :
  fst (_ensure_session_for_ip ip sid now w)
  = match ODict.lookup ip (session_data w) with
    | Some s => session_id s
    | None => sid
    end.
Proof.
  unfold _ensure_session_for_ip. now destruct (ODict.lookup ip (session_data w)).
Qed.

(** A request line of exactly three tokens whose response is sent: the
    path "/" is served as "/index.html"; the response carries the status
    and the body [get_file] gave and, in its cookie, the identifier of the
    session of the peer, the one it already had or else a fresh one; one
    request is recorded, under that status, and the session stored for the
    peer has the identifier of the cookie, the path served and the device
    class of the header User-Agent. *)
Theorem served_request_recorded_under_its_status (e : env) (w : world)
    (req m p v : string) :
  env_recv e = Some req ->
  PyStr.split (request_line req) = [m; p; v] ->
  env_send_ok e = true ->
  let a := get_file (env_fs e) (served_path p) (enter w) in
  let sid := match ODict.lookup (env_ip e) (session_data w) with
             | Some s => session_id s
             | None => env_uuid e
             end in
  let w' := fst (handle_client e w) in
  snd (handle_client e w)
  = fa_events a ++ [EvSend (response_bytes (fa_status a) sid (fa_body a)); EvClose]
  /\ total_requests (metrics w') = total_requests (metrics w) + 1
  /\ status_codes (metrics w') !! PyStr.str (fa_status a)
     = Some (default 0 (status_codes (metrics w) !! PyStr.str (fa_status a)) + 1)
  /\ exists s,
       ODict.lookup (env_ip e) (session_data w') = Some s
       /\ session_id s = sid
       /\ last_path s = Some (served_path p)
       /\ device_type s
          = detect_device (default "" (headers_of req !! "User-Agent")).
Proof.
  intros Hrecv Hsplit Hsend. cbv zeta.
  rewrite handle_client_unfold.
  rewrite (handle_try_three_tokens e (enter w) req m p v Hrecv Hsplit).
  cbv zeta. rewrite Hsend. cbn [fst snd].
  set (a := get_file (env_fs e) (served_path p) (enter w)).
  destruct (get_file_keeps_counts (env_fs e) (served_path p) (enter w))
    as (Ht & Hcodes & _ & Hsess & _). fold a in Ht, Hcodes, Hsess.
  destruct (ensure_keeps_counts (env_ip e) (env_uuid e) (env_now e) (fa_world a))
    as (Ht2 & Hcodes2 & _).
  pose proof (ensure_keeps_existing_id (env_ip e) (env_uuid e) (env_now e)
                (fa_world a)) as Hid.
  rewrite Hsess in Hid. cbn [enter set_metrics session_data] in Hid.
  destruct (ensure_session_stored (env_ip e) (env_uuid e) (env_now e) (fa_world a))
    as (s0 & Hs0 & Hs0id).
  rewrite Hid. split; [now rewrite <- app_assoc|].
  cbn [leave set_metrics metrics record record_metrics total_requests
       status_codes set_active_clients session_data rc_status_code call_of].
  rewrite Ht2, Ht, Hcodes2, Hcodes.
  split; [reflexivity|]. split; [apply bump_lookup_eq|].
  pose proof (record_session_existing
                (call_of e (served_path p) (fa_status a)
                   (detect_device (default "" (headers_of req !! "User-Agent"))))
                _ s0 Hs0) as Hrec.
  cbn [rc_ip call_of] in Hrec. rewrite Hrec.
  eexists. split; [reflexivity|]. cbn. rewrite Hs0id, Hid. now repeat split.
Qed.

Lemma served_request_recorded_under_its_status_witness :
  env_recv (peer (Some home_request) true) = Some home_request
  /\ PyStr.split (request_line home_request) = ["GET"; "/"; "HTTP/1.1"]
  /\ env_send_ok (peer (Some home_request) true) = true
  /\ total_requests
       (metrics (fst (handle_client (peer (Some home_request) true) served_once)))
     = total_requests (metrics served_once) + 1.
Proof.
  assert (H1 : env_recv (peer (Some home_request) true) = Some home_request)
    by reflexivity.
  assert (H2 : PyStr.split (request_line home_request) = ["GET"; "/"; "HTTP/1.1"])
    by (vm_compute; reflexivity).
  assert (H3 : env_send_ok (peer (Some home_request) true) = true) by reflexivity.
  split; [exact H1|]. split; [exact H2|]. split; [exact H3|].
  exact (proj1 (proj2 (served_request_recorded_under_its_status
                         (peer (Some home_request) true) served_once
                         home_request "GET" "/" "HTTP/1.1" H1 H2 H3))).
Defined.

Lemma get_file_counts_one fs path w :
  cache_hits (metrics (fa_world (get_file fs path w)))
  + cache_misses (metrics (fa_world (get_file fs path w)))
  = cache_hits (metrics w) + cache_misses (metrics w) + 1.
Proof.
  unfold get_file. destruct (cached path w); [simpl; lia|].
  destruct (fs (static_location path)); try (simpl; lia).
  cbn [fa_world set_metrics metrics add_cache_miss cache_enabled].
  destruct (cache_enabled (metrics w)); simpl; lia.
Qed.

Lemma ensure_keeps_cache_counters ip sid now w :
  cache_hits (metrics (snd (_ensure_session_for_ip ip sid now w)))
  = cache_hits (metrics w)
  /\ cache_misses (metrics (snd (_ensure_session_for_ip ip sid now w)))
     = cache_misses (metrics w).
Proof.
  unfold _ensure_session_for_ip.
  destruct (ODict.lookup ip (session_data w)); now split.
Qed.

(** A request line of exactly three tokens whose response cannot be sent:
    nothing is recorded (the number of requests, the histogram of status
    codes, the window of response times and the log are as before), but
    the look-up is counted as one cache hit or miss and the peer has a
    session. *)
Theorem unsent_response_is_not_recorded (e : env) (w : world)
    (req m p v : string) :
  env_recv e = Some req ->
  PyStr.split (request_line req) = [m; p; v] ->
  env_send_ok e = false ->
  let w' := fst (handle_client e w) in
  sends (snd (handle_client e w)) = 1%nat
  /\ total_requests (metrics w') = total_requests (metrics w)
  /\ status_codes (metrics w') = status_codes (metrics w)
  /\ response_times (metrics w') = response_times (metrics w)
  /\ recent_requests (metrics w') = recent_requests (metrics w)
  /\ cache_hits (metrics w') + cache_misses (metrics w')
     = cache_hits (metrics w) + cache_misses (metrics w) + 1
  /\ ODict.mem (env_ip e) (session_data w') = true.
Proof.
  intros Hrecv Hsplit Hsend. cbv zeta.
  rewrite handle_client_unfold.
  rewrite (handle_try_three_tokens e (enter w) req m p v Hrecv Hsplit).
  cbv zeta. rewrite Hsend. cbn [fst snd].
  set (a := get_file (env_fs e) (served_path p) (enter w)).
  destruct (get_file_keeps_counts (env_fs e) (served_path p) (enter w))
    as (Ht & Hcodes & _ & _ & Hrt & _ & Hlog & _).
  fold a in Ht, Hcodes, Hrt, Hlog.
  destruct (ensure_keeps_counts (env_ip e) (env_uuid e) (env_now e) (fa_world a))
    as (Ht2 & Hcodes2 & _ & Hrt2 & _ & Hlog2 & _).
  destruct (ensure_keeps_cache_counters (env_ip e) (env_uuid e) (env_now e)
              (fa_world a)) as (Hh & Hm).
  pose proof (get_file_counts_one (env_fs e) (served_path p) (enter w)) as Hone.
  fold a in Hone.
  destruct (ensure_session_stored (env_ip e) (env_uuid e) (env_now e) (fa_world a))
    as (s0 & Hs0 & _).
  split.
  { destruct (get_file_events (env_fs e) (served_path p) (enter w)) as [Hev|Hev];
      fold a in Hev; rewrite Hev; reflexivity. }
  cbn [leave set_metrics metrics total_requests status_codes response_times
       recent_requests cache_hits cache_misses set_active_clients session_data].
  rewrite Ht2, Ht, Hcodes2, Hcodes, Hrt2, Hrt, Hlog2, Hlog, Hh, Hm, Hone.
  repeat split. unfold ODict.mem. now rewrite Hs0.
Qed.

Lemma unsent_response_is_not_recorded_witness :
  env_recv (peer (Some home_request) false) = Some home_request
  /\ PyStr.split (request_line home_request) = ["GET"; "/"; "HTTP/1.1"]
  /\ env_send_ok (peer (Some home_request) false) = false
  /\ total_requests
       (metrics (fst (handle_client (peer (Some home_request) false) initial_world)))
     = total_requests (metrics initial_world).
Proof.
  assert (H1 : env_recv (peer (Some home_request) false) = Some home_request)
    by reflexivity.
  assert (H2 : PyStr.split (request_line home_request) = ["GET"; "/"; "HTTP/1.1"])
    by (vm_compute; reflexivity).
  assert (H3 : env_send_ok (peer (Some home_request) false) = false) by reflexivity.
  split; [exact H1|]. split; [exact H2|]. split; [exact H3|].
  exact (proj1 (proj2 (unsent_response_is_not_recorded
                         (peer (Some home_request) false) initial_world
                         home_request "GET" "/" "HTTP/1.1" H1 H2 H3))).
Defined.

(** The handler never looks at the method or at the protocol of the
    request line: two reads with the same path token and the same header
    lines are handled alike, whatever their first and third tokens. *)
Theorem method_and_protocol_are_ignored (e : env) (w : world)
    (req1 req2 m1 m2 p v1 v2 : string) :
  PyStr.split (request_line req1) = [m1; p; v1] ->
  PyStr.split (request_line req2) = [m2; p; v2] ->
  tl (PyStr.split_crlf req1) = tl (PyStr.split_crlf req2) ->
  handle_client (with_request req1 e) w = handle_client (with_request req2 e) w.
Proof.
  intros H1 H2 Hheaders.
  rewrite !handle_client_unfold.
  rewrite (handle_try_three_tokens (with_request req1 e) (enter w) req1 m1 p v1
             eq_refl H1).
  rewrite (handle_try_three_tokens (with_request req2 e) (enter w) req2 m2 p v2
             eq_refl H2).
  unfold headers_of. rewrite Hheaders. reflexivity.
Qed.

Lemma method_and_protocol_are_ignored_witness :
  PyStr.split (request_line home_request) = ["GET"; "/"; "HTTP/1.1"]
  /\ PyStr.split (request_line odd_request) = ["DELETE"; "/"; "FTP"]
  /\ tl (PyStr.split_crlf home_request) = tl (PyStr.split_crlf odd_request)
  /\ handle_client (with_request home_request (peer None true)) initial_world
     = handle_client (with_request odd_request (peer None true)) initial_world.
Proof.
  assert (H1 : PyStr.split (request_line home_request) = ["GET"; "/"; "HTTP/1.1"])
    by (vm_compute; reflexivity).
  assert (H2 : PyStr.split (request_line odd_request) = ["DELETE"; "/"; "FTP"])
    by (vm_compute; reflexivity).
  assert (H3 : tl (PyStr.split_crlf home_request) = tl (PyStr.split_crlf odd_request))
    by (vm_compute; reflexivity).
  split; [exact H1|]. split; [exact H2|]. split; [exact H3|].
  exact (method_and_protocol_are_ignored (peer None true) initial_world
           home_request odd_request "GET" "DELETE" "/" "HTTP/1.1" "FTP" H1 H2 H3).
Defined.

(** ** Headers *)

Lemma parse_headers_app l1 : forall l2 h,
  parse_headers (l1 ++ l2) h = parse_headers l2 (parse_headers l1 h).
Proof.
  induction l1 as [|line l1 IH]; intros l2 h; simpl; [reflexivity|].
  destruct (PyStr.partition_colon line) as [[k v]|]; apply IH.
Qed.

Lemma parse_headers_unset key ls : forall h,
  forallb (fun line => negb (sets_header key line)) ls = true ->
  parse_headers ls h !! key = h !! key.
Proof.
  induction ls as [|line ls IH]; intros h Hall; simpl in *; [reflexivity|].
  apply andb_prop in Hall as [Hline Hrest].
  unfold sets_header in Hline.
  destruct (PyStr.partition_colon line) as [[k v]|]; [|now apply IH].
  rewrite IH by assumption.
  apply lookup_insert_ne. intros Heq.
  rewrite Heq, String.eqb_refl in Hline. discriminate.
Qed.

(** Of the header lines that set a key, the last one wins, with the name
    and the value stripped of surrounding whitespace; a key that no line
    sets (a line sets the key only when the text before its first colon,
    stripped, is the key letter for letter) is absent. *)
Theorem last_header_line_wins (key : string) (after : list string) :
  forallb (fun line => negb (sets_header key line)) after = true ->
  parse_headers after ∅ !! key = None
  /\ forall (before : list string) (line k v : string),
       PyStr.partition_colon line = Some (k, v) ->
       PyStr.strip k = key ->
       parse_headers (before ++ line :: after) ∅ !! key = Some (PyStr.strip v).
Proof.
  intros Hafter. split.
  - rewrite parse_headers_unset by assumption. apply lookup_empty.
  - intros before line k v Hline Hkey.
    rewrite parse_headers_app. simpl. rewrite Hline.
    rewrite parse_headers_unset by assumption.
    rewrite Hkey. apply lookup_insert_eq.
Qed.

Lemma last_header_line_wins_witness :
  forallb (fun line => negb (sets_header "User-Agent" line))
    ["user-agent: iPad"; "Accept: */*"] = true
  /\ parse_headers ["user-agent: iPad"; "Accept: */*"] ∅ !! "User-Agent" = None
  /\ parse_headers
       (["User-Agent: first"] ++ " User-Agent :  second "
          :: ["user-agent: iPad"; "Accept: */*"]) ∅ !! "User-Agent"
     = Some "second".
Proof.
  assert (H : forallb (fun line => negb (sets_header "User-Agent" line))
                ["user-agent: iPad"; "Accept: */*"] = true)
    by (vm_compute; reflexivity).
  split; [exact H|].
  destruct (last_header_line_wins "User-Agent" _ H) as [Hnone Hlast].
  split; [exact Hnone|].
  exact (Hlast ["User-Agent: first"] " User-Agent :  second "
           " User-Agent " "  second " eq_refl eq_refl).
Defined.

(** ** Session summaries *)

Lemma summary_of_id s : summary_of s = s.
Proof. now destruct s. Qed.

Lemma map_summary_of l : map summary_of l = l.
Proof.
  induction l as [|s l IH]; simpl; [reflexivity|].
  now rewrite summary_of_id, IH.
Qed.

(** [get_session_summary] with its default limit of 20 returns the
    session summary of the snapshot.  With a limit that is not negative it
    returns the first [limit] sessions in their order of insertion, every
    field as stored; with a negative limit [-k] it returns all the
    sessions but the last [k]. *)
Theorem session_summary_is_a_prefix_of_the_sessions (limit : Z) (w : world) :
  option_map snap_session_summary (_get_metrics_copy w)
  = Some (get_session_summary 20 w)
  /\ (0 <= limit ->
      get_session_summary limit w
      = take (Z.to_nat limit) (ODict.values (session_data w)))
  /\ (limit < 0 ->
      get_session_summary limit w
      = take (length (session_data w) - Z.to_nat (- limit))
          (ODict.values (session_data w))).
Proof.
  split; [|split].
  - destruct (get_metrics_copy_total w) as [snap Hsnap]. rewrite Hsnap.
    unfold _get_metrics_copy in Hsnap. cbv zeta in Hsnap.
    destruct (_calc_percentiles (response_times (metrics w)) 95); [|discriminate].
    destruct (_calc_percentiles (response_times (metrics w)) 99); [|discriminate].
    now injection Hsnap as <-.
  - intros Hlimit. unfold get_session_summary, py_slice_to.
    rewrite map_summary_of.
    destruct (Z.leb_spec 0 limit); [reflexivity|lia].
  - intros Hlimit. unfold get_session_summary, py_slice_to.
    rewrite map_summary_of.
    destruct (Z.leb_spec 0 limit); [lia|].
    unfold ODict.values. now rewrite length_map.
Qed.

(** ** Percentiles out of range *)

(** On a window of two samples or more, asking for the 0th percentile
    gives the 99th: the index [int(pct) - 1] = -1 counts from the end of
    the 99 cut points. *)
Theorem percentile_zero_is_percentile_99 (times : list float) :
  (2 <= length times)%nat ->
  _calc_percentiles times 0 = _calc_percentiles times 99
  /\ primary_percentile times 0 <> None.
Proof.
  intros Hlen.
  destruct (quantiles_many times Hlen) as (q & Hq & Hq99).
  assert (H0 : primary_percentile times 0 = primary_percentile times 99).
  { unfold primary_percentile. rewrite Hq. unfold py_index. rewrite Hq99.
    reflexivity. }
  assert (H99 : primary_percentile times 99 <> None).
  { intros Hnone. apply primary_percentile_none in Hnone; lia. }
  split; [|now rewrite H0].
  unfold _calc_percentiles. rewrite H0.
  destruct times; [reflexivity|].
  destruct (primary_percentile _ 99); [reflexivity|congruence].
Qed.

Lemma percentile_zero_is_percentile_99_witness :
  (2 <= length [0.5%float; 0.25%float; 1%float])%nat
  /\ _calc_percentiles [0.5%float; 0.25%float; 1%float] 0
     = _calc_percentiles [0.5%float; 0.25%float; 1%float] 99.
Proof.
  assert (H : (2 <= length [0.5%float; 0.25%float; 1%float])%nat) by (simpl; lia).
  split; [exact H|].
  exact (proj1 (percentile_zero_is_percentile_99 _ H)).
Defined.

(** Asking for the 100th percentile of a window that is not empty makes
    the expression of the [try] raise, and the value returned is the last
    of the sorted samples in milliseconds, rounded to two decimals. *)
Theorem percentile_100_is_the_last_sample (times : list float) :
  times <> [] ->
  primary_percentile times 100 = None
  /\ exists v,
       last (times_ms times) = Some v
       /\ _calc_percentiles times 100 = Some (PyFloat.round v 2).
Proof.
  intros Hne.
  assert (Hprim : primary_percentile times 100 = None).
  { unfold primary_percentile.
    destruct (Nat.lt_ge_cases (length times) 2) as [Hlt|Hge].
    - now rewrite quantiles_few.
    - destruct (quantiles_many times Hge) as (q & -> & Hq99).
      unfold py_index. rewrite Hq99. reflexivity. }
  split; [exact Hprim|].
  assert (Hlen : (0 < length (times_ms times))%nat).
  { rewrite length_times_ms. destruct times; [congruence|simpl; lia]. }
  destruct (lookup_lt_is_Some_2 (times_ms times) (pred (length (times_ms times))))
    as [v Hv]; [lia|].
  exists v. split; [now rewrite last_lookup|].
  unfold _calc_percentiles. destruct times as [|t times]; [congruence|].
  rewrite Hprim, fallback_percentile_floor.
  replace (Z.to_nat _) with (pred (length (times_ms (t :: times)))).
  - now rewrite Hv.
  - rewrite length_times_ms. rewrite Z.div_mul by lia. simpl length. lia.
Qed.

Lemma percentile_100_is_the_last_sample_witness :
  [0.5%float; 0.25%float; 1%float] <> []
  /\ _calc_percentiles [0.5%float; 0.25%float; 1%float] 100 = Some 1000%float.
Proof.
  assert (H : [0.5%float; 0.25%float; 1%float] <> []) by discriminate.
  split; [exact H|].
  destruct (percentile_100_is_the_last_sample _ H) as (_ & v & Hlast & Hcalc).
  rewrite Hcalc. vm_compute in Hlast. injection Hlast as <-.
  vm_compute. reflexivity.
Defined.

(** ** The pure helpers *)

Lemma sum_ord_list s :
  sum_ord s = fold_right Z.add 0 (map PyStr.ord (list_ascii_of_string s)).
Proof. induction s as [|c s IH]; simpl; [reflexivity|now rewrite IH]. Qed.

Lemma fold_add_permutation (l1 l2 : list Z) :
  Permutation l1 l2 -> fold_right Z.add 0 l1 = fold_right Z.add 0 l2.
Proof. induction 1; simpl; lia. Qed.

(** The country guessed for an address is always one of the seven codes of
    the table, and it depends only on which characters the address has,
    not on their order. *)
Theorem guessed_country_is_a_bucket (ip : string) :
  In (guess_country_from_ip ip) ["IN"; "US"; "GB"; "DE"; "FR"; "AU"; "BR"]
  /\ forall ip',
       Permutation (list_ascii_of_string ip) (list_ascii_of_string ip') ->
       guess_country_from_ip ip' = guess_country_from_ip ip.
Proof.
  split.
  - unfold guess_country_from_ip. cbv zeta.
    change (Z.of_nat (length ["IN"; "US"; "GB"; "DE"; "FR"; "AU"; "BR"])) with 7.
    pose proof (Z.mod_pos_bound (sum_ord ip) 7 ltac:(lia)) as Hb.
    remember (Z.to_nat (sum_ord ip mod 7)) as i eqn:Hi.
    assert (Hlt : (i < 7)%nat) by lia. clear Hi Hb.
    do 7 (destruct i as [|i]; [simpl; tauto|]). lia.
  - intros ip' Hperm. unfold guess_country_from_ip. cbv zeta.
    rewrite !sum_ord_list.
    rewrite (fold_add_permutation _ _ (Permutation_map PyStr.ord Hperm)).
    reflexivity.
Qed.

Lemma lower_app a b :
  PyStr.lower (String.append a b) = String.append (PyStr.lower a) (PyStr.lower b).
Proof. induction a as [|c a IH]; simpl; [reflexivity|now rewrite IH]. Qed.

Lemma startswith_app p s : PyStr.startswith p (String.append p s) = true.
Proof.
  induction p as [|c p IH]; simpl; [reflexivity|].
  now rewrite Ascii.eqb_refl, IH.
Qed.

Lemma contains_startswith p s :
  PyStr.startswith p s = true -> PyStr.contains p s = true.
Proof. intros H. destruct s; simpl in *; now rewrite H. Qed.

Lemma contains_app pre sub post :
  PyStr.contains sub (String.append pre (String.append sub post)) = true.
Proof.
  induction pre as [|c pre IH].
  - change (String.append "" (String.append sub post)) with (String.append sub post).
    apply contains_startswith, startswith_app.
  - simpl. rewrite IH. apply orb_true_r.
Qed.

(** The device class is one of "mobile", "tablet" and "desktop"; a user
    agent that has "mobile", "android" or "iphone" anywhere in it, in any
    mix of capitals and small letters, is "mobile", whatever else it has
    (the words "ipad" and "tablet" included). *)
Theorem mobile_keyword_decides_device (pre kw post : string) :
  In (PyStr.lower kw) ["mobile"; "android"; "iphone"] ->
  detect_device (String.append pre (String.append kw post)) = "mobile"
  /\ forall ua, In (detect_device ua) ["mobile"; "tablet"; "desktop"].
Proof.
  intros Hkw. split.
  - unfold detect_device. cbv zeta. rewrite !lower_app.
    destruct Hkw as [<-|[<-|[<-|[]]]]; rewrite contains_app;
      rewrite ?orb_true_r; reflexivity.
  - intros ua. unfold detect_device. cbv zeta.
    destruct (_ || _ || _); [simpl; tauto|].
    destruct (_ || _); simpl; tauto.
Qed.

Lemma mobile_keyword_decides_device_witness :
  In (PyStr.lower "Mobile") ["mobile"; "android"; "iphone"]
  /\ detect_device
       (String.append "Mozilla/5.0 (iPad; CPU OS 16_0) "
          (String.append "Mobile" "/15E148 Safari"))
     = "mobile".
Proof.
  assert (H : In (PyStr.lower "Mobile") ["mobile"; "android"; "iphone"])
    by (left; reflexivity).
  split; [exact H|].
  exact (proj1 (mobile_keyword_decides_device
                  "Mozilla/5.0 (iPad; CPU OS 16_0) " "Mobile" "/15E148 Safari" H)).
Defined.

(** ** Who is answered, and under which key a path is cached *)

Lemma sends_snoc_close evs : sends (evs ++ [EvClose]) = sends evs.
Proof.
  unfold sends. rewrite List.filter_app, length_app. simpl. lia.
Qed.

(** A handler sends a response exactly when its read gives a text that is
    not empty and whose request line has at most three tokens: it then
    sends one response, and otherwise none. *)
Theorem response_sent_iff_at_most_three_tokens (e : env) (w : world) :
  sends (snd (handle_client e w)) = (if answered e then 1 else 0)%nat.
Proof.
  rewrite handle_client_unfold. cbn [snd]. rewrite sends_snoc_close.
  unfold answered.
  destruct (env_recv e) as [req|] eqn:Hrecv;
    [|unfold handle_try; rewrite Hrecv; reflexivity].
  destruct (String.eqb req "") eqn:Hempty;
    [unfold handle_try; rewrite Hrecv, Hempty; reflexivity|].
  cbn [negb andb].
  destruct (PyStr.split (request_line req)) as [|m [|p [|v [|x l]]]] eqn:Hsplit.
  1-3: unfold handle_try; rewrite Hrecv, Hempty; fold (request_line req);
       rewrite Hsplit; reflexivity.
  - rewrite (handle_try_three_tokens e (enter w) req m p v Hrecv Hsplit).
    cbv zeta.
    destruct (get_file_events (env_fs e) (served_path p) (enter w)) as [-> | ->];
      destruct (env_send_ok e); reflexivity.
  - unfold handle_try. rewrite Hrecv, Hempty. fold (request_line req).
    rewrite Hsplit. reflexivity.
Qed.

Lemma cons_not_self (c : ascii) (s : string) : String c s <> s.
Proof.
  intros H. apply (f_equal String.length) in H. simpl in H. lia.
Qed.

(** A path with one more leading slash names the same file, but another
    entry of the cache: after the path was resolved and stored, resolving
    it with one more slash looks the same location up on the disk again
    and stores the body a second time, under the longer key. *)
Theorem leading_slash_same_file_other_entry (fs : string -> fs_result)
    (path body : string) (w : world) :
  cache_enabled (metrics w) = true ->
  cached path w = None ->
  cached (String "/" path) w = None ->
  fs (static_location path) = FsFile body ->
  let first := get_file fs path w in
  let second := get_file fs (String "/" path) (fa_world first) in
  static_location (String "/" path) = static_location path
  /\ fa_events second = [EvDisk (static_location path)]
  /\ fa_body second = body
  /\ file_cache (fa_world second) !! path = Some body
  /\ file_cache (fa_world second) !! String "/" path = Some body
  /\ cache_misses (metrics (fa_world second)) = cache_misses (metrics w) + 2.
Proof.
  intros Hon Hmiss Hmiss' Hfile. cbv zeta.
  assert (Hloc : static_location (String "/" path) = static_location path)
    by reflexivity.
  split; [exact Hloc|].
  rewrite (get_file_stores fs path body w Hon Hmiss Hfile).
  cbn [fa_world].
  set (w1 := {| metrics := add_cache_miss (metrics w);
                session_data := session_data w;
                file_cache := <[path := body]> (file_cache w) |}).
  assert (Hon1 : cache_enabled (metrics w1) = true) by exact Hon.
  assert (Hmiss1 : cached (String "/" path) w1 = None).
  { unfold cached in *. rewrite Hon1. rewrite Hon in Hmiss'. subst w1. simpl.
    rewrite lookup_insert_ne; [assumption|]. intros H. symmetry in H.
    exact (cons_not_self _ _ H). }
  assert (Hfile1 : fs (static_location (String "/" path)) = FsFile body)
    by (rewrite Hloc; exact Hfile).
  rewrite (get_file_stores fs (String "/" path) body w1 Hon1 Hmiss1 Hfile1).
  cbn [fa_events fa_body fa_world file_cache metrics w1 add_cache_miss
       cache_misses].
  rewrite Hloc. split; [reflexivity|]. split; [reflexivity|].
  split.
  - rewrite lookup_insert_ne by apply cons_not_self. apply lookup_insert_eq.
  - split; [apply lookup_insert_eq|]. subst w1. simpl. lia.
Qed.

Lemma leading_slash_same_file_other_entry_witness :
  cache_enabled (metrics initial_world) = true
  /\ cached "/index.html" initial_world = None
  /\ cached "//index.html" initial_world = None
  /\ site (static_location "/index.html") = FsFile "<h1>Home</h1>"
  /\ fa_events
       (get_file site "//index.html"
          (fa_world (get_file site "/index.html" initial_world)))
     = [EvDisk (static_location "/index.html")].
Proof.
  assert (H1 : cache_enabled (metrics initial_world) = true) by reflexivity.
  assert (H2 : cached "/index.html" initial_world = None) by reflexivity.
  assert (H3 : cached (String "/" "/index.html") initial_world = None)
    by reflexivity.
  assert (H4 : site (static_location "/index.html") = FsFile "<h1>Home</h1>")
    by reflexivity.
  split; [exact H1|]. split; [exact H2|]. split; [exact H3|]. split; [exact H4|].
  exact (proj1 (proj2 (leading_slash_same_file_other_entry site "/index.html"
                         "<h1>Home</h1>" initial_world H1 H2 H3 H4))).
Defined.
